(** * caikit: the global train servicer

    A shallow embedding of [caikit/runtime/servicers/global_train_servicer.py]:
    the output-path rule, the two train-and-save executors (in-process and
    forked child process), the asynchronous launch through the single-worker
    pool, the registry of training futures, and the error classification
    at each boundary.

    Python values are embedded directly: [str] as [string] (descriptor
    names, paths and ids are ASCII), [Optional[str]] as [option string],
    a [dict] used as a registry as a [gmap], exceptions as values of
    [exn] carried by an error monad, and every effect on an external
    collaborator (the trainable module, the model manager, the child
    process, the logger) as an entry of a trace. *)

From Stdlib Require Import ZArith Ascii String List Bool Lia.
From stdpp Require Import base option list strings gmap pretty.

Open Scope string_scope.
Open Scope list_scope.

(** ** Python strings *)

Module Str.

(** [s.startswith(p)] *)
Definition startswith (p s : string) : bool := String.prefix p s.

(** [s.endswith(p)] *)
Fixpoint endswith (p s : string) : bool :=
  String.eqb s p
  || match s with
     | EmptyString => false
     | String _ rest => endswith p rest
     end.

(** [needle in hay] on [str]: the substring test. *)
Fixpoint contains (needle hay : string) : bool :=
  String.prefix needle hay
  || match hay with
     | EmptyString => false
     | String _ rest => contains needle rest
     end.

(** [s.split(sep)] for a one-character separator. *)
Fixpoint split (sep : ascii) (s : string) : list string :=
  match s with
  | EmptyString => [EmptyString]
  | String c rest =>
      if Ascii.eqb c sep then EmptyString :: split sep rest
      else match split sep rest with
           | [] => [String c EmptyString]
           | w :: ws => String c w :: ws
           end
  end.

(** [sep.join(parts)] for the empty separator. *)
Definition concat (parts : list string) : string :=
  fold_right String.append EmptyString parts.

Definition is_upper (c : ascii) : bool :=
  let n := nat_of_ascii c in (65 <=? n)%nat && (n <=? 90)%nat.

(** [s.lower()] on ASCII text. *)
Definition lower_char (c : ascii) : ascii :=
  if is_upper c then ascii_of_nat (nat_of_ascii c + 32) else c.

Fixpoint lower (s : string) : string :=
  match s with
  | EmptyString => EmptyString
  | String c rest => String (lower_char c) (lower rest)
  end.

(** [s.replace(old, new)] for a non-empty [old]: occurrences are replaced
    left to right without overlap.  [skip] counts the characters of the
    occurrence being consumed. *)
Fixpoint replace_from (old new : string) (skip : nat) (s : string) : string :=
  match s with
  | EmptyString => EmptyString
  | String c rest =>
      match skip with
      | S k => replace_from old new k rest
      | O =>
          if String.prefix old s
          then new ++ replace_from old new (String.length old - 1) rest
          else String c (replace_from old new 0 rest)
      end
  end.

Definition replace (old new s : string) : string := replace_from old new 0 s.

End Str.

(** ** [os.path.join] on a POSIX host

    The servicer forks its child process and reads [os.EX_OK], so it runs on
    POSIX only and [os.path] is [posixpath]. *)

Module posixpath.

Definition sep : string := "/".

(** One turn of the loop of [join]: an absolute component discards what
    came before, a separator is inserted unless the path is empty or
    already ends with one. *)
Definition join_step (path b : string) : string :=
  if Str.startswith sep b then b
  else if String.eqb path "" || Str.endswith sep path then path ++ b
  else path ++ sep ++ b.

Definition join (a : string) (p : list string) : string :=
  fold_left join_step p a.

End posixpath.

(** ** The output path of a training *)

(** [GlobalTrainServicer._get_model_path]; [self_training_output_dir] is the
    configured default, [self.training_output_dir]. *)
Definition _get_model_path (self_training_output_dir : string)
    (training_output_dir : option string) (model_name training_id : string)
    : string :=
  match training_output_dir with
  | Some dir =>
      if Str.contains training_id dir
      then posixpath.join dir [model_name]
      else posixpath.join dir [training_id; model_name]
  | None =>
      posixpath.join self_training_output_dir [training_id; model_name]
  end.

(** The rule as the specification words it: the hint is tested for having
    the training id as one of its path components. *)
Definition path_components (path : string) : list string :=
  Str.split "/"%char path.

Definition has_component (training_id dir : string) : bool :=
  existsb (String.eqb training_id) (path_components dir).

Definition spec_model_path (default_output_dir : string)
    (output_dir_hint : option string) (model_name training_id : string)
    : string :=
  match output_dir_hint with
  | None => posixpath.join default_output_dir [training_id; model_name]
  | Some hint =>
      if has_component training_id hint
      then posixpath.join hint [model_name]
      else posixpath.join hint [training_id; model_name]
  end.

(** ** Status codes and exceptions *)

(** [grpc.StatusCode] *)
Module StatusCode.
Inductive t :=
| OK | CANCELLED | UNKNOWN | INVALID_ARGUMENT | DEADLINE_EXCEEDED
| NOT_FOUND | ALREADY_EXISTS | PERMISSION_DENIED | RESOURCE_EXHAUSTED
| FAILED_PRECONDITION | ABORTED | OUT_OF_RANGE | UNIMPLEMENTED
| INTERNAL | UNAVAILABLE | DATA_LOSS | UNAUTHENTICATED.
End StatusCode.

(** The built-in exception classes the servicer can meet, with
    [concurrent.futures.CancelledError] and its base [Error]. *)
Inductive PyClass :=
| BaseException | Exception
| TypeError | ValueError | UnicodeError
| AttributeError | UnboundLocalError | NameError
| LookupError | IndexError | KeyError
| AssertionError | RuntimeError | MemoryError
| ImportError | ModuleNotFoundError | OSError
| KeyboardInterrupt | SystemExit
| FuturesError | CancelledError.

Global Instance PyClass_eq_dec : EqDecision PyClass.
Proof. solve_decision. Defined.

(** The method resolution order of each class: the class and its bases. *)
Definition mro (c : PyClass) : list PyClass :=
  match c with
  | BaseException => [BaseException]
  | Exception => [Exception; BaseException]
  | UnicodeError => [UnicodeError; ValueError; Exception; BaseException]
  | UnboundLocalError =>
      [UnboundLocalError; NameError; Exception; BaseException]
  | IndexError => [IndexError; LookupError; Exception; BaseException]
  | KeyError => [KeyError; LookupError; Exception; BaseException]
  | ModuleNotFoundError =>
      [ModuleNotFoundError; ImportError; Exception; BaseException]
  | CancelledError => [CancelledError; FuturesError; Exception; BaseException]
  | KeyboardInterrupt => [KeyboardInterrupt; BaseException]
  | SystemExit => [SystemExit; BaseException]
  | c => [c; Exception; BaseException]
  end.

#[local] Set Warnings "-register-all".

(** An exception in flight.  [CaikitRuntimeException] is the runtime's own
    class, built from a status code and a message; [cause] is what
    [raise ... from e] records.  Its correlation id and metadata are not
    read by any decision of the servicer and are left out.  Every other
    exception is an instance of a built-in class with the text [str(e)]
    gives. *)
Inductive exn :=
| CaikitRuntimeException (status_code : StatusCode.t) (message : string)
    (cause : option exn)
| PyError (cls : PyClass) (text : string).

(** [isinstance(e, CaikitRuntimeException)] *)
Definition is_CaikitRuntimeException (e : exn) : bool :=
  match e with
  | CaikitRuntimeException _ _ _ => true
  | PyError _ _ => false
  end.

(** [isinstance(e, (c1, ..., cn))] for built-in classes;
    [CaikitRuntimeException] derives from [Exception]. *)
Definition isinstance (e : exn) (classes : list PyClass) : bool :=
  let bases := match e with
               | CaikitRuntimeException _ _ _ => [Exception; BaseException]
               | PyError c _ => mro c
               end in
  existsb (fun c => bool_decide (c ∈ bases)) classes.

(** [str(e)] as the f-strings of the handlers print it. *)
Definition str_of (e : exn) : string :=
  match e with
  | CaikitRuntimeException _ m _ => m
  | PyError _ t => t
  end.

(** ** Computations that change a state and may raise *)

Inductive result (A : Type) :=
| Return (a : A)
| Raise (e : exn).
Arguments Return {A} a.
Arguments Raise {A} e.

Definition M (S A : Type) : Type := S -> S * result A.

Definition ret {S A} (a : A) : M S A := fun s => (s, Return a).
Definition raise {S A} (e : exn) : M S A := fun s => (s, Raise e).
Definition bind {S A B} (m : M S A) (k : A -> M S B) : M S B :=
  fun s => match m s with
           | (s', Return a) => k a s'
           | (s', Raise e) => (s', Raise e)
           end.
Definition get {S} : M S S := fun s => (s, Return s).
Definition modify {S} (f : S -> S) : M S unit := fun s => (f s, Return tt).

Declare Scope py_scope.
Delimit Scope py_scope with py.
Notation "x <- m ;; k" := (bind m (fun x => k))
  (at level 100, m at next level, right associativity) : py_scope.
Notation "m ;; k" := (bind m (fun _ => k))
  (at level 100, right associativity) : py_scope.
Open Scope py_scope.

(** One [except C as e: handler] clause. *)
Record except_clause (S A : Type) := Except {
  catches : exn -> bool;
  handler : exn -> M S A;
}.
Arguments Except {S A} catches handler.
Arguments catches {S A} _ _.
Arguments handler {S A} _ _.

(** The first clause whose class test accepts the exception handles it; an
    exception no clause accepts propagates. *)
Fixpoint dispatch {S A} (clauses : list (except_clause S A)) (e : exn)
    : M S A :=
  match clauses with
  | [] => raise e
  | c :: rest => if catches c e then handler c e else dispatch rest e
  end.

(** [try: body except ...]: an exception raised by a handler is not
    offered to the sibling clauses. *)
Definition try_except {S A} (body : M S A)
    (clauses : list (except_clause S A)) : M S A :=
  fun s => match body s with
           | (s', Return a) => (s', Return a)
           | (s', Raise e) => dispatch clauses e s'
           end.

(** ** The world the executors act on *)

(** What the servicer does to its collaborators, in program order. *)
Inductive effect :=
| Log (log_code : string)
| ModuleTrain (module_name : string)
| ModelSave (model_path : string)
| ProcStart
| ProcTerminate
| ProcClose
| ProcJoin
| LoadModel (model_id local_model_path model_type : string)
| RetrieveModel (model_id : string).

Global Instance effect_eq_dec : EqDecision effect.
Proof. solve_decision. Defined.

(** A trained model: [save(path)] returns or raises. *)
Record TrainedModel := {
  save : string -> result unit;
}.

(** A trainable module class: its [__name__], its [__module__] and what
    [train] does with the keyword arguments of a request. *)
Record ModuleClass := {
  __name__ : string;
  __module__ : string;
  train : list (string * string) -> result TrainedModel;
}.

(** [multiprocessing.popen_fork.Popen]: the status of the child once it
    has been collected. *)
Record Popen := {
  returncode : option Z;
}.

(** [_ErrorCaptureProcess]: a [multiprocessing] process object with the
    [error] attribute the subclass adds. *)
Record Process := {
  _args : option (ModuleClass * string * list (string * string));
  _popen : option Popen;
  _closed : bool;
  error : option exn;
}.

(** What the operating system lets the parent see of the forked child:
    its exit status and nothing else.  These are inputs: a child may be
    killed from outside at any time.  The child works on its own copy of
    the process object; nothing it stores there shows on the parent's. *)
Record ChildView := {
  (** the status a non-blocking [poll()] finds before [join]: [None]
      while the child still runs *)
  polled : option Z;
  (** the status [join] collects *)
  joined_exitcode : Z;
}.

(** The state of one executor: the [threading.Event] it shares with the
    launcher, its process object, the child as seen from the parent, and
    the effects so far. *)
Record ExecState := {
  event : bool;
  proc : Process;
  child : ChildView;
  trace : list effect;
}.

Definition set_event (b : bool) (s : ExecState) : ExecState :=
  {| event := b; proc := proc s; child := child s; trace := trace s |}.
Definition set_proc (p : Process) (s : ExecState) : ExecState :=
  {| event := event s; proc := p; child := child s; trace := trace s |}.
Definition emit (x : effect) (s : ExecState) : ExecState :=
  {| event := event s; proc := proc s; child := child s;
     trace := trace s ++ [x] |}.

Definition tell (x : effect) : M ExecState unit := modify (emit x).

(** A call to a collaborator: the effect is recorded, then the call
    returns or raises. *)
Definition call {A} (x : effect) (r : result A) : M ExecState A :=
  fun s => (emit x s, r).

(** ** [multiprocessing.Process], as CPython defines the methods used *)

Module Process.

Definition fresh : Process :=
  {| _args := None; _popen := None; _closed := false; error := None |}.

Definition _check_closed : M ExecState unit :=
  s <- get ;;
  if _closed (proc s)
  then raise (PyError ValueError "process object is closed")
  else ret tt.

(** [set_args] of [_ErrorCaptureProcess] *)
Definition set_args (module_class : ModuleClass) (model_path : string)
    (kwargs : list (string * string)) : M ExecState unit :=
  modify (fun s =>
    set_proc {| _args := Some (module_class, model_path, kwargs);
                _popen := _popen (proc s); _closed := _closed (proc s);
                error := error (proc s) |} s).

(** [start]: forks the child, then drops target and arguments. *)
Definition start : M ExecState unit :=
  _check_closed ;;
  s <- get ;;
  match _popen (proc s) with
  | Some _ => raise (PyError AssertionError "cannot start a process twice")
  | None =>
      modify (fun s =>
        set_proc {| _args := None;
                    _popen := Some {| returncode := None |};
                    _closed := _closed (proc s);
                    error := error (proc s) |} s) ;;
      tell ProcStart
  end.

(** [Popen.poll()]: a status already collected is kept; otherwise the
    child is asked without blocking. *)
Definition poll (po : Popen) : M ExecState (option Z) :=
  match returncode po with
  | Some c => ret (Some c)
  | None =>
      s <- get ;;
      match polled (child s) with
      | Some c =>
          modify (fun s =>
            set_proc {| _args := _args (proc s);
                        _popen := Some {| returncode := Some c |};
                        _closed := _closed (proc s);
                        error := error (proc s) |} s) ;;
          ret (Some c)
      | None => ret None
      end
  end.

(** [terminate]: SIGTERM to the child. *)
Definition terminate : M ExecState unit :=
  _check_closed ;;
  s <- get ;;
  match _popen (proc s) with
  | None =>
      raise (PyError AttributeError
               "'NoneType' object has no attribute 'terminate'")
  | Some _ => tell ProcTerminate
  end.

(** [close]: refuses while the child still runs. *)
Definition close : M ExecState unit :=
  s <- get ;;
  match _popen (proc s) with
  | Some po =>
      st <- poll po ;;
      match st with
      | None =>
          raise (PyError ValueError
                   "Cannot close a process while it is still running. You should first call join() or terminate().")
      | Some _ =>
          modify (fun s =>
            set_proc {| _args := _args (proc s); _popen := None;
                        _closed := true; error := error (proc s) |} s) ;;
          tell ProcClose
      end
  | None =>
      modify (fun s =>
        set_proc {| _args := _args (proc s); _popen := None;
                    _closed := true; error := error (proc s) |} s)
  end.

(** [join]: waits for the child and collects its status.  The [error]
    attribute is the parent's own and is left as it is. *)
Definition join : M ExecState unit :=
  _check_closed ;;
  s <- get ;;
  match _popen (proc s) with
  | None => raise (PyError AssertionError "can only join a started process")
  | Some po =>
      modify (fun s =>
        set_proc {| _args := _args (proc s);
                    _popen := Some {| returncode :=
                      Some (match returncode po with
                            | Some c => c
                            | None => joined_exitcode (child s)
                            end) |};
                    _closed := _closed (proc s);
                    error := error (proc s) |} s) ;;
      tell ProcJoin
  end.

(** The [exitcode] property. *)
Definition exitcode : M ExecState (option Z) :=
  _check_closed ;;
  s <- get ;;
  match _popen (proc s) with
  | None => ret None
  | Some po => poll po
  end.

(** [_bootstrap], run by the child after the fork, as far as the exit
    status goes: 0 when [run] returns, 1 when an exception leaves it; a
    [SystemExit] exits with the status it carries, [exit_status]. *)
Definition _bootstrap (exit_status : Z) (r : result unit) : Z :=
  match r with
  | Return _ => 0
  | Raise e => if isinstance e [SystemExit] then exit_status else 1
  end.

End Process.

(** ** The in-process executor *)

Module LocalTrainSaveExecutor.

(** The executor as [__init__] leaves it: it keeps the event.  An
    in-process executor has no child; the process object and the child
    view of its state are never read. *)
Definition __init__ (event : bool) : ExecState :=
  {| event := event; proc := Process.fresh;
     child := {| polled := None; joined_exitcode := 0 |};
     trace := [] |}.

(** Modelled from the spec: [DestroyableThread] is not among the sources;
    the servicer calls its [run()] in the calling thread and then
    [get_or_throw()], which hands back what the module's [train] returned
    or raises what it raised.  What the thread does with the event it is
    handed and what it writes to the log itself are not modelled: of
    this call the properties use the outcome and the calls to [train]
    and [save]. *)
Definition run_get_or_throw (module_class : ModuleClass)
    (kwargs : list (string * string)) : M ExecState TrainedModel :=
  call (ModuleTrain (__name__ module_class)) (train module_class kwargs).

Definition train_and_save_model (module_class : ModuleClass)
    (model_path : string) (kwargs : list (string * string))
    : M ExecState unit :=
  try_except
    (model <- run_get_or_throw module_class kwargs ;;
     call (ModelSave model_path) (save model model_path))
    [ Except is_CaikitRuntimeException (fun e =>
        tell (Log "<RUN555430380W>") ;;
        raise e);
      Except (fun e => isinstance e [TypeError; ValueError]) (fun e =>
        tell (Log "<RUN868639039W>") ;;
        raise (CaikitRuntimeException StatusCode.INVALID_ARGUMENT
                 ("Exception raised during training. This may be a problem with your input: "
                  ++ str_of e)
                 (Some e)));
      Except (fun e => isinstance e [Exception]) (fun e =>
        tell (Log "<RUN490967039W>") ;;
        raise (CaikitRuntimeException StatusCode.INTERNAL
                 ("Exception raised during training: " ++ str_of e)
                 (Some e))) ].

(** The body of [cancel] is its docstring and a TODO. *)
Definition cancel : M ExecState unit := ret tt.

End LocalTrainSaveExecutor.

(** ** The child-process executor *)

Definition OOM_EXIT_CODE : Z := 137.

(** [os.EX_OK] *)
Definition EX_OK : Z := 0.

Module SubProcessTrainSaveExecutor.

(** [_ErrorCaptureProcess.run], executed by the child on its copy of the
    state: an [Exception] raised by the target is kept in [error]. *)
Definition run (super_run : M ExecState unit) : M ExecState unit :=
  try_except super_run
    [ Except (fun e => isinstance e [Exception]) (fun err =>
        modify (fun s =>
          set_proc {| _args := _args (proc s); _popen := _popen (proc s);
                      _closed := _closed (proc s); error := Some err |} s)) ].

(** The executor as [__init__] leaves it. *)
Definition __init__ (event : bool) (child : ChildView) : ExecState :=
  {| event := event; proc := Process.fresh; child := child; trace := [] |}.

Definition cancel : M ExecState unit :=
  Process.terminate ;;
  Process.close ;;
  tell (Log "<RUN57624710E>") ;;
  raise (CaikitRuntimeException StatusCode.CANCELLED
           "Training request terminated" None).

Definition train_and_save_model (module_class : ModuleClass)
    (model_path : string) (kwargs : list (string * string))
    : M ExecState unit :=
  Process.set_args module_class model_path kwargs ;;
  Process.start ;;
  s <- get ;;
  (if event s then cancel else ret tt) ;;
  Process.join ;;
  s <- get ;;
  match error (proc s) with
  | Some err =>
      if is_CaikitRuntimeException err then raise err
      else raise (CaikitRuntimeException StatusCode.INTERNAL
                    "Error caught in training subprocess" (Some err))
  | None => ret tt
  end ;;
  exitcode <- Process.exitcode ;;
  match exitcode with
  | Some code =>
      if negb (code =? 0)%Z && negb (code =? EX_OK)%Z then
        if (code =? OOM_EXIT_CODE)%Z then
          raise (CaikitRuntimeException StatusCode.RESOURCE_EXHAUSTED
                   "Training process died with OOM error!" None)
        else
          raise (CaikitRuntimeException StatusCode.UNKNOWN
                   ("Training process died with exit code " ++ pretty code)
                   None)
      else ret tt
  | None => ret tt
  end.

(** What the child executes after the fork: [run] around the inherited
    in-process [train_and_save_model]. *)
Definition child_main (module_class : ModuleClass) (model_path : string)
    (kwargs : list (string * string)) : M ExecState unit :=
  run (LocalTrainSaveExecutor.train_and_save_model
         module_class model_path kwargs).

(** The exit status of a child that is left to run to its end.  The
    fork happens inside [start], so the child's copy of the state is the
    parent's after [set_args]. *)
Definition child_exit (module_class : ModuleClass) (model_path : string)
    (kwargs : list (string * string)) (exit_status : Z) (s : ExecState)
    : Z :=
  Process._bootstrap exit_status
    (snd (child_main module_class model_path kwargs
            (fst (Process.set_args module_class model_path kwargs s)))).

End SubProcessTrainSaveExecutor.

(** ** The servicer *)

(** A train request: the name of its message descriptor, the name the
    trained model is to carry, and the module-specific parameters. *)
Record Request := {
  DESCRIPTOR_name : string;
  model_name : string;
  parameters : list (string * string);
}.

(** [caikit.interfaces.runtime.data_model.TrainingJob] *)
Record TrainingJob := {
  job_model_name : string;
  training_id : string;
}.

(** [ModelManager]: each call returns or raises. *)
Record ModelManager := {
  load_model : string -> string -> string -> result unit;
  retrieve_model : string -> result string;
}.

(** The servicer object: its configuration and its collaborators.
    [import_getattr m a] is [getattr(importlib.import_module(m), a)];
    [snake_to_upper_camel] and [build_caikit_library_request_dict] are the
    helpers of [servicer_util], which is not among the sources and is
    taken as given. *)
Record Servicer := {
  training_output_dir : string;
  auto_load_trained_model : bool;
  use_subprocess : bool;
  library : string;
  _model_manager : ModelManager;
  import_getattr : string -> string -> result ModuleClass;
  MODULE_REGISTRY : list ModuleClass;
  snake_to_upper_camel : string -> string;
  build_caikit_library_request_dict :
    Request -> ModuleClass -> result (list (string * string));
}.

(** The callable handed to the pool by [run_async]: the executor's
    [train_and_save_model], alone or followed by the load of the trained
    model. *)
Inductive Target :=
| train_and_save
| train_save_then_load (model_name model_path : string).

(** The keyword arguments the callable is submitted with. *)
Record Kwargs := {
  module_class : ModuleClass;
  kw_model_path : string;
  train_kwargs : list (string * string);
}.

(** [concurrent.futures.Future] *)
Module Future.

Inductive state :=
| PENDING
| RUNNING
| CANCELLED
| FINISHED (outcome : result (option string)).

(** A future of the pool with the work item it stands for: the callable,
    its keyword arguments and the executor object the callable is bound
    to ([subprocess] tells its class). *)
Record t := {
  _state : state;
  target : Target;
  kwargs : Kwargs;
  subprocess : bool;
  executor : ExecState;
}.

End Future.

(** What changes while the servicer runs: the registry of training
    futures, the futures of the pool in submission order (a future is
    referred to by its position), the callbacks registered on request
    contexts, and the effects so far. *)
Record State := {
  training_map : gmap string nat;
  futures : list Future.t;
  callbacks : list nat;
  log : list effect;
}.

Definition set_training_map (m : gmap string nat) (s : State) : State :=
  {| training_map := m; futures := futures s; callbacks := callbacks s;
     log := log s |}.
Definition set_futures (fs : list Future.t) (s : State) : State :=
  {| training_map := training_map s; futures := fs;
     callbacks := callbacks s; log := log s |}.
Definition set_callbacks (cs : list nat) (s : State) : State :=
  {| training_map := training_map s; futures := futures s; callbacks := cs;
     log := log s |}.
Definition set_log (l : list effect) (s : State) : State :=
  {| training_map := training_map s; futures := futures s;
     callbacks := callbacks s; log := l |}.

Definition note (x : effect) : M State unit :=
  modify (fun s => set_log (log s ++ [x]) s).

(** A collaborator's answer, lifted into a computation. *)
Definition lift {S A} (r : result A) : M S A := fun s => (s, r).

(** [GlobalTrainServicer._load_trained_model] *)
Definition _load_trained_model (self : Servicer) (model_name model_path : string)
    : M ExecState (option string) :=
  call (LoadModel model_name model_path "standalone")
       (load_model (_model_manager self) model_name model_path "standalone") ;;
  m <- call (RetrieveModel model_name)
            (retrieve_model (_model_manager self) model_name) ;;
  ret (Some m).

(** [runnable_executor.train_and_save_model], by the class of the
    executor. *)
Definition train_and_save_model (subprocess : bool) (kw : Kwargs)
    : M ExecState unit :=
  if subprocess
  then SubProcessTrainSaveExecutor.train_and_save_model
         (module_class kw) (kw_model_path kw) (train_kwargs kw)
  else LocalTrainSaveExecutor.train_and_save_model
         (module_class kw) (kw_model_path kw) (train_kwargs kw).

(** The call of a submitted target on a pool worker. *)
Definition call_target (self : Servicer) (subprocess : bool) (t : Target)
    (kw : Kwargs) : M ExecState (option string) :=
  match t with
  | train_and_save =>
      train_and_save_model subprocess kw ;;
      ret None
  | train_save_then_load model_name model_path =>
      train_and_save_model subprocess kw ;;
      _load_trained_model self model_name model_path
  end.

(** ** The pool with one worker

    The worker takes the work items in submission order.  The model lets
    it run at the points where the launcher waits for it: a pending
    future is settled when a result at or after it is asked for. *)

Module Pool.

(** The worker runs one work item; the effects of the call are
    returned beside the settled future. *)
Definition settle (self : Servicer) (f : Future.t)
    : Future.t * list effect :=
  match Future._state f with
  | Future.PENDING =>
      let '(ex, r) :=
        call_target self (Future.subprocess f) (Future.target f)
          (Future.kwargs f) (Future.executor f) in
      ({| Future._state := Future.FINISHED r;
          Future.target := Future.target f;
          Future.kwargs := Future.kwargs f;
          Future.subprocess := Future.subprocess f;
          Future.executor := ex |},
       drop (length (trace (Future.executor f))) (trace ex))
  | _ => (f, [])
  end.

(** The worker settles the first [n] futures, in order. *)
Fixpoint drain (self : Servicer) (n : nat) (fs : list Future.t)
    : list Future.t * list effect :=
  match n, fs with
  | S k, f :: rest =>
      let '(f', l) := settle self f in
      let '(rest', l') := drain self k rest in
      (f' :: rest', l ++ l')
  | _, _ => (fs, [])
  end.

(** [self.executor.submit(target, **kwargs)] *)
Definition submit (t : Target) (kw : Kwargs) (subprocess : bool)
    (ex : ExecState) : M State nat :=
  s <- get ;;
  let fut := {| Future._state := Future.PENDING; Future.target := t;
                Future.kwargs := kw; Future.subprocess := subprocess;
                Future.executor := ex |} in
  modify (set_futures (futures s ++ [fut])) ;;
  ret (length (futures s)).

(** [future.result()]: blocks until the future is settled.  In the
    sequential model the worker has then run every work item up to this
    one, so the future is finished or cancelled; the last two branches
    answer for states no operation of the servicer leaves behind (a
    future caught in its call, a reference past the pool). *)
Definition result_ (self : Servicer) (fut : nat) : M State (option string) :=
  modify (fun s =>
    let '(fs, l) := drain self (S fut) (futures s) in
    set_log (log s ++ l) (set_futures fs s)) ;;
  s <- get ;;
  match futures s !! fut with
  | Some f =>
      match Future._state f with
      | Future.FINISHED r => lift r
      | Future.CANCELLED => raise (PyError CancelledError "")
      | _ => raise (PyError RuntimeError "future of an idle pool")
      end
  | None => raise (PyError RuntimeError "no such future")
  end.

(** [future.running()] *)
Definition running (f : Future.t) : bool :=
  match Future._state f with
  | Future.RUNNING => true
  | _ => false
  end.

(** [future.cancel()]: a running or finished future is left alone. *)
Definition cancel (f : Future.t) : Future.t * bool :=
  match Future._state f with
  | Future.RUNNING | Future.FINISHED _ => (f, false)
  | Future.CANCELLED => (f, true)
  | Future.PENDING =>
      ({| Future._state := Future.CANCELLED;
          Future.target := Future.target f;
          Future.kwargs := Future.kwargs f;
          Future.subprocess := Future.subprocess f;
          Future.executor := Future.executor f |}, true)
  end.

End Pool.

(** ** Launching a training *)

(** [GlobalTrainServicer.run_async]: the executor object is passed as its
    class and its state. *)
Definition run_async (self : Servicer) (subprocess : bool)
    (runnable_executor : ExecState) (kw : Kwargs)
    (model_name model_path : string) : M State nat :=
  let target :=
    if auto_load_trained_model self
    then train_save_then_load model_name model_path
    else train_and_save in
  Pool.submit target kw subprocess runnable_executor.

(** The closure [cancel_future] of [run_training_job], bound to its
    future; the event is the one of the future's executor. *)
Definition cancel_future (thread_future : nat) : M State unit :=
  s <- get ;;
  match futures s !! thread_future with
  | Some f =>
      if Pool.running f && negb (event (Future.executor f)) then
        let f1 := {| Future._state := Future._state f;
                     Future.target := Future.target f;
                     Future.kwargs := Future.kwargs f;
                     Future.subprocess := Future.subprocess f;
                     Future.executor := set_event true (Future.executor f) |} in
        modify (set_futures (<[thread_future := fst (Pool.cancel f1)]> (futures s)))
      else ret tt
  | None => ret tt
  end.

(** [GlobalTrainServicer.run_training_job].  [child] is what the forked
    child of this training will let the parent see, should the training
    run in a child process.  The keyword arguments the request maps to
    are kept beside [module_class] and [model_path]; a key of one of
    these two names among them, which would replace the entry of the
    dict, is not modelled. *)
Definition run_training_job (self : Servicer) (request : Request)
    (model : ModuleClass) (training_id : string)
    (training_output_dir_ : option string) (child : ChildView)
    (wait : bool) : M State TrainingJob :=
  let model_name_ := model_name request in
  let model_path :=
    _get_model_path (training_output_dir self) training_output_dir_
      model_name_ training_id in
  request_kwargs <- lift (build_caikit_library_request_dict self request model) ;;
  let kw := {| module_class := model; kw_model_path := model_path;
               train_kwargs := request_kwargs |} in
  let event := false in
  let target :=
    if use_subprocess self
    then SubProcessTrainSaveExecutor.__init__ event child
    else LocalTrainSaveExecutor.__init__ event in
  thread_future <- run_async self (use_subprocess self) target kw
                     model_name_ model_path ;;
  modify (fun s =>
    set_training_map (<[training_id := thread_future]> (training_map s)) s) ;;
  modify (fun s => set_callbacks (callbacks s ++ [thread_future]) s) ;;
  (if wait then _ <- Pool.result_ self thread_future ;; ret tt else ret tt) ;;
  ret {| job_model_name := model_name request; training_id := training_id |}.

(** ** Resolving the module of a request *)

(** [re.split("(?<=.)(?=[A-Z])", s)]: the string is cut before every
    upper-case letter that follows a character other than a newline.
    [pieces_after prev s] is the split of [s] when [prev] precedes it,
    its head continuing the piece in progress. *)
Fixpoint pieces_after (prev : ascii) (s : string) : list string :=
  match s with
  | EmptyString => [EmptyString]
  | String c rest =>
      let cur := match pieces_after c rest with
                 | [] => [String c EmptyString]
                 | p :: ps => String c p :: ps
                 end in
      if Str.is_upper c && negb (Ascii.eqb prev "010"%char)
      then EmptyString :: cur
      else cur
  end.

Definition re_split_upper (s : string) : list string :=
  match s with
  | EmptyString => [EmptyString]
  | String c rest =>
      match pieces_after c rest with
      | [] => [String c EmptyString]
      | p :: ps => String c p :: ps
      end
  end.

(** The first strategy: the module path and the class name are read off
    the pieces of the descriptor name. *)
Definition resolve_by_name (self : Servicer) (desc_name : string)
    : result ModuleClass :=
  match re_split_upper desc_name with
  | s0 :: s1 :: rest =>
      import_getattr self
        (library self ++ "." ++ Str.lower s0 ++ "." ++ Str.lower s1)
        (Str.concat rest)
  | _ => Raise (PyError IndexError "list index out of range")
  end.

(** The second strategy: the loop over [MODULE_REGISTRY.values()]. *)
Fixpoint scan_registry (self : Servicer) (mods : list ModuleClass)
    (desc_name : string) : result (option ModuleClass) :=
  match mods with
  | [] => Return None
  | mod_ :: rest =>
      match Str.split "."%char (__module__ mod_) with
      | _ :: m1 :: m2 :: _ =>
          let train_request_for_mod :=
            snake_to_upper_camel self
              (m1 ++ "_" ++ m2 ++ "_" ++ __name__ mod_) in
          if String.eqb train_request_for_mod desc_name
          then Return (Some mod_)
          else scan_registry self rest desc_name
      | _ => Raise (PyError IndexError "list index out of range")
      end
  end.

(** The inner [try] of [Train]. *)
Definition resolve_model (self : Servicer) (desc_name : string)
    : M State (option ModuleClass) :=
  try_except
    (m <- lift (resolve_by_name self desc_name) ;; ret (Some m))
    [ Except (fun e => isinstance e [Exception]) (fun _ =>
        lift (scan_registry self (MODULE_REGISTRY self) desc_name)) ].

(** The body of the outer [try] of [Train]; [uuid] is what [str(uuid4())]
    gives on this call. *)
Definition Train_body (self : Servicer) (request : Request) (uuid : string)
    (child : ChildView) : M State TrainingJob :=
  let desc_name := Str.replace "TrainRequest" "" (DESCRIPTOR_name request) in
  model <- resolve_model self desc_name ;;
  match model with
  | None =>
      raise (CaikitRuntimeException StatusCode.INTERNAL
               "Global Train not able to parse module for this Train Request"
               None)
  | Some model =>
      let training_id := uuid in
      run_training_job self request model training_id
        (Some (training_output_dir self)) child false
  end.

(** The [except] clauses of [Train].  The clause for [CancelledError]
    reads [err.message], which that class does not have, so it leaves
    with an [AttributeError] before anything else happens. *)
Definition Train_clauses : list (except_clause State TrainingJob) :=
  [ Except is_CaikitRuntimeException (fun e =>
      note (Log "<RUN50530380W>") ;;
      raise e);
    Except (fun e => isinstance e [CancelledError]) (fun err =>
      raise (PyError AttributeError
               "'CancelledError' object has no attribute 'message'"));
    Except (fun e => isinstance e [TypeError; ValueError]) (fun e =>
      note (Log "<RUN490439039W>") ;;
      raise (CaikitRuntimeException StatusCode.INVALID_ARGUMENT
               ("Exception raised during inference. This may be a problem with your input: "
                ++ str_of e)
               (Some e)));
    Except (fun e => isinstance e [Exception]) (fun e =>
      note (Log "<RUN49049070W>") ;;
      raise (CaikitRuntimeException StatusCode.INTERNAL
               "Unhandled exception during training" (Some e))) ].

(** [GlobalTrainServicer.Train] *)
Definition Train (self : Servicer) (request : Request) (uuid : string)
    (child : ChildView) : M State TrainingJob :=
  try_except (Train_body self request uuid child) Train_clauses.

(** ** Notions the properties are stated with *)

(** [needle] occurs in [hay]. *)
Definition occurs_in (needle hay : string) : Prop :=
  exists pre post : string, hay = (pre ++ needle ++ post)%string.

(** A process object on which [start] can still be called. *)
Definition startable (s : ExecState) : Prop :=
  _popen (proc s) = None /\ _closed (proc s) = false.

(** The status [close] finds when it polls a started process. *)
Definition status_at_close (s : ExecState) (po : Popen) : option Z :=
  match returncode po with
  | Some c => Some c
  | None => polled (child s)
  end.

(** The effects a computation added to the trace. *)
Definition added (before after : ExecState) : list effect :=
  drop (length (trace before)) (trace after).

(** A failure inside the [try] of the in-process executor: [train]
    raises, or it returns a model whose [save] raises. *)
Definition fails_with (module_class : ModuleClass) (model_path : string)
    (kwargs : list (string * string)) (e : exn) : Prop :=
  train module_class kwargs = Raise e
  \/ exists model, train module_class kwargs = Return model
                   /\ save model model_path = Raise e.

Definition is_load (x : effect) : bool :=
  match x with
  | LoadModel _ _ _ => true
  | _ => false
  end.

(** How many times the model manager's load was invoked. *)
Definition loads (l : list effect) : nat := length (filter is_load l).

(** [m] takes every state to one that [R] relates to it. *)
Definition respects {S A} (R : relation S) (m : M S A) : Prop :=
  forall s, R s (fst (m s)).

(** The trace only grew, and by no load of a model. *)
Definition grew (s s' : ExecState) : Prop :=
  exists l, trace s' = trace s ++ l /\ loads l = 0.

(** Every training id of the registry is still in it. *)
Definition keeps_ids (s s' : State) : Prop :=
  forall tid, is_Some (training_map s !! tid) ->
              is_Some (training_map s' !! tid).

(** No future of the pool is caught in the middle of its call. *)
Definition idle_pool (s : State) : Prop :=
  Forall (fun f => Pool.running f = false) (futures s).

(** An idle pool stays idle. *)
Definition stays_idle (s s' : State) : Prop := idle_pool s -> idle_pool s'.

(** The classification after [join] in the order the specification lists
    it once no domain error was captured: the exit status first, a
    captured generic exception last. *)
Definition spec_by_status (error : option exn) (exitcode : Z)
    : result unit :=
  if (exitcode =? OOM_EXIT_CODE)%Z then
    Raise (CaikitRuntimeException StatusCode.RESOURCE_EXHAUSTED
             "Training process died with OOM error!" None)
  else if negb (exitcode =? 0)%Z then
    Raise (CaikitRuntimeException StatusCode.UNKNOWN
             ("Training process died with exit code " ++ pretty exitcode)
             None)
  else
    match error with
    | Some err =>
        Raise (CaikitRuntimeException StatusCode.INTERNAL
                 "Error caught in training subprocess" (Some err))
    | None => Return tt
    end.

(** The classification after [join] in the order the specification lists
    it: a domain error first, then the exit status, and a captured
    generic exception last. *)
Definition spec_after_join (error : option exn) (exitcode : Z)
    : result unit :=
  match error with
  | Some err =>
      if is_CaikitRuntimeException err then Raise err
      else spec_by_status (Some err) exitcode
  | None => spec_by_status None exitcode
  end.

(** The operations that touch the state of a servicer. *)
Inductive step (self : Servicer) : State -> State -> Prop :=
| step_Train request uuid child s :
    step self s (fst (Train self request uuid child s))
| step_run_training_job request model training_id dir child wait s :
    step self s
      (fst (run_training_job self request model training_id dir child wait s))
| step_cancel_future fut s :
    step self s (fst (cancel_future fut s))
| step_result fut s :
    step self s (fst (Pool.result_ self fut s)).

Inductive steps (self : Servicer) : State -> State -> Prop :=
| steps_refl s : steps self s s
| steps_step s1 s2 s3 :
    step self s1 s2 -> steps self s2 s3 -> steps self s1 s3.

(** ** Further notions the properties are stated with *)

Definition is_save (x : effect) : bool :=
  match x with
  | ModelSave _ => true
  | _ => false
  end.

(** The request name the catalog scan computes for a module: none when
    the module path has fewer than three components. *)
Definition train_request_name (self : Servicer) (m : ModuleClass)
    : option string :=
  match Str.split "."%char (__module__ m) with
  | _ :: m1 :: m2 :: _ =>
      Some (snake_to_upper_camel self (m1 ++ "_" ++ m2 ++ "_" ++ __name__ m))
  | _ => None
  end.

(** No character of the string is an upper-case letter. *)
Definition no_upper (s : string) : bool :=
  forallb (fun c => negb (Str.is_upper c)) (list_ascii_of_string s).

(** The string begins with an upper-case letter. *)
Definition starts_upper (s : string) : bool :=
  match s with
  | String c _ => Str.is_upper c
  | EmptyString => false
  end.

(** No upper-case letter follows the first character of the name. *)
Definition one_word (s : string) : bool :=
  match s with
  | String _ rest => no_upper rest
  | EmptyString => true
  end.

(** The catalog scan goes past this module: its request name is defined
    and differs from the one looked for. *)
Definition passed_over (self : Servicer) (desc_name : string)
    (m : ModuleClass) : Prop :=
  exists n, train_request_name self m = Some n /\ n <> desc_name.

(** ** Sample objects *)

Module Sample.

Definition trained : TrainedModel := {| save := fun _ => Return tt |}.

(** A module whose [train] and [save] return. *)
Definition SampleBlock : ModuleClass :=
  {| __name__ := "SampleBlock";
     __module__ := "sample_lib.blocks.sample_task.sample_implementation";
     train := fun _ => Return trained |}.

(** A module whose [train] raises [ValueError("bad param")]. *)
Definition BadParam : ModuleClass :=
  {| __name__ := "BadParam";
     __module__ := "sample_lib.blocks.sample_task.bad_param";
     train := fun _ => Raise (PyError ValueError "bad param") |}.

(** A module whose [train] is interrupted from the keyboard. *)
Definition Interrupted : ModuleClass :=
  {| __name__ := "Interrupted";
     __module__ := "sample_lib.blocks.sample_task.interrupted";
     train := fun _ => Raise (PyError KeyboardInterrupt "") |}.

Definition manager : ModelManager :=
  {| load_model := fun _ _ _ => Return tt;
     retrieve_model := fun model_id => Return model_id |}.

(** A child that has stopped with status 0 whenever it is asked. *)
Definition quiet_child : ChildView :=
  {| polled := Some 0%Z; joined_exitcode := 0 |}.

(** A child still running when polled, as one in the middle of
    training is. *)
Definition busy_child : ChildView :=
  {| polled := None; joined_exitcode := 0 |}.

(** A child killed with status 137. *)
Definition oom_killed : ChildView :=
  {| polled := None; joined_exitcode := 137 |}.

(** An executor whose child has been started and is still training. *)
Definition mid_training : ExecState :=
  fst ((Process.set_args SampleBlock "/out/id/bar" [] ;; Process.start)
         (SubProcessTrainSaveExecutor.__init__ false busy_child)).

(** A servicer for the library [sample_lib]: only
    [sample_lib.blocks.sample] can be imported, and the catalog holds
    the two modules above. *)
Definition servicer (auto_load subprocess : bool) : Servicer :=
  {| training_output_dir := "/out";
     auto_load_trained_model := auto_load;
     use_subprocess := subprocess;
     library := "sample_lib";
     _model_manager := manager;
     import_getattr := fun m a =>
       if String.eqb m "sample_lib.blocks.sample" then Return SampleBlock
       else Raise (PyError ModuleNotFoundError m);
     MODULE_REGISTRY := [SampleBlock; BadParam];
     snake_to_upper_camel := fun s => s;
     build_caikit_library_request_dict := fun r _ => Return (parameters r) |}.

(** A servicer whose import always finds [SampleBlock] and whose
    request mapper gives a fixed answer. *)
Definition mapping_servicer (answer : result (list (string * string)))
    : Servicer :=
  {| training_output_dir := "/out";
     auto_load_trained_model := false;
     use_subprocess := false;
     library := "sample_lib";
     _model_manager := manager;
     import_getattr := fun _ _ => Return SampleBlock;
     MODULE_REGISTRY := [];
     snake_to_upper_camel := fun s => s;
     build_caikit_library_request_dict := fun _ _ => answer |}.

Definition request (descriptor : string) : Request :=
  {| DESCRIPTOR_name := descriptor; model_name := "bar"; parameters := [] |}.

Definition idle : State :=
  {| training_map := ∅; futures := []; callbacks := []; log := [] |}.

End Sample.

(** * Properties *)

(** ** Strings and paths *)

Section Strings.

Local Open Scope string_scope.

Lemma str_app_assoc (a b c : string) : (a ++ b) ++ c = a ++ b ++ c.
Proof.
  induction a as [|x a IH]; [reflexivity|].
  change (String x ((a ++ b) ++ c) = String x (a ++ b ++ c)). now f_equal.
Qed.

Lemma prefix_app (p s : string) : String.prefix p (p ++ s) = true.
Proof.
  induction p as [|c p IH]; simpl.
  - now destruct s.
  - destruct (ascii_dec c c) as [_|ne]; [exact IH | now destruct ne].
Qed.

Lemma prefix_inv (p s : string) :
  String.prefix p s = true -> exists post : string, s = p ++ post.
Proof.
  revert s; induction p as [|c p IH]; intros s H.
  - now exists s.
  - destruct s as [|d s]; simpl in H; [discriminate|].
    destruct (ascii_dec c d) as [->|]; [|discriminate].
    destruct (IH _ H) as [post ->]. now exists post.
Qed.

Lemma contains_nil (needle : string) :
  Str.contains needle "" = String.prefix needle "" || false.
Proof. reflexivity. Qed.

Lemma contains_cons (needle : string) (c : ascii) (hay : string) :
  Str.contains needle (String c hay)
  = String.prefix needle (String c hay) || Str.contains needle hay.
Proof. reflexivity. Qed.

Lemma contains_occurs (needle hay : string) :
  Str.contains needle hay = true -> occurs_in needle hay.
Proof.
  induction hay as [|c hay IH]; intros H.
  - rewrite contains_nil in H. apply orb_prop in H as [H|H]; [|discriminate].
    destruct (prefix_inv _ _ H) as [post E]. now exists "", post.
  - rewrite contains_cons in H. apply orb_prop in H as [H|H].
    + destruct (prefix_inv _ _ H) as [post E]. now exists "", post.
    + destruct (IH H) as (pre & post & ->). now exists (String c pre), post.
Qed.

Lemma occurs_contains (needle hay : string) :
  occurs_in needle hay -> Str.contains needle hay = true.
Proof.
  intros (pre & post & ->).
  induction pre as [|c pre IH].
  - change ("" ++ needle ++ post) with (needle ++ post).
    pose proof (prefix_app needle post) as P.
    destruct (needle ++ post) as [|d r].
    + rewrite contains_nil, P. reflexivity.
    + rewrite contains_cons, P. reflexivity.
  - change (String c pre ++ needle ++ post)
      with (String c (pre ++ needle ++ post)).
    rewrite contains_cons, IH. apply orb_true_r.
Qed.

(** The substring test of the code decides [occurs_in]. *)
Lemma contains_iff (needle hay : string) :
  Str.contains needle hay = true <-> occurs_in needle hay.
Proof. split; [apply contains_occurs | apply occurs_contains]. Qed.

Lemma split_nonempty (sep : ascii) (s : string) : Str.split sep s <> [].
Proof.
  induction s as [|c s IH]; simpl; [discriminate|].
  destruct (Ascii.eqb c sep); [discriminate|].
  now destruct (Str.split sep s).
Qed.

(** The first piece of a split starts the string that was split. *)
Lemma split_head (sep : ascii) (s p : string) (ps : list string) :
  Str.split sep s = p :: ps -> exists post : string, s = p ++ post.
Proof.
  revert p ps; induction s as [|c s IH]; simpl; intros p ps E.
  - injection E as <- <-. now exists "".
  - destruct (Ascii.eqb c sep).
    + injection E as <- <-. now exists (String c s).
    + destruct (Str.split sep s) as [|q qs] eqn:Es.
      * now destruct (split_nonempty sep s).
      * injection E as <- <-. destruct (IH q qs eq_refl) as [post ->].
        now exists post.
Qed.

(** A piece of a split occurs in the string that was split. *)
Lemma split_occurs (sep : ascii) (s w : string) :
  In w (Str.split sep s) -> occurs_in w s.
Proof.
  revert w; induction s as [|c s IH]; simpl; intros w H.
  - destruct H as [<-|[]]. now exists "", "".
  - destruct (Ascii.eqb c sep).
    + destruct H as [<-|H].
      * now exists "", (String c s).
      * destruct (IH _ H) as (pre & post & ->).
        now exists (String c pre), post.
    + destruct (Str.split sep s) as [|p ps] eqn:E.
      * now destruct (split_nonempty sep s).
      * destruct H as [<-|H].
        -- destruct (split_head _ _ _ _ E) as [post ->].
           now exists "", post.
        -- destruct (IH w) as (pre & post & ->); [now right|].
           now exists (String c pre), post.
Qed.

(** A path component of a directory occurs in it. *)
Lemma component_occurs (training_id dir : string) :
  has_component training_id dir = true -> occurs_in training_id dir.
Proof.
  unfold has_component, path_components. intros H.
  apply existsb_exists in H as (w & Hin & Heq).
  apply String.eqb_eq in Heq as <-. now apply split_occurs in Hin.
Qed.

Lemma endswith_app (p s : string) : Str.endswith p (s ++ p) = true.
Proof.
  induction s as [|c s IH]; simpl.
  - destruct p; simpl; [reflexivity|]. now rewrite Ascii.eqb_refl, String.eqb_refl.
  - rewrite IH. apply orb_true_r.
Qed.

(** Where no component is absolute and the path so far is not empty
    and does not end with a separator, [join] puts one separator
    between the path and the component. *)
Lemma join_step_plain (path b : string) :
  path <> "" -> Str.endswith "/" path = false ->
  Str.startswith "/" b = false ->
  posixpath.join_step path b = path ++ "/" ++ b.
Proof.
  intros Hne He Hs. unfold posixpath.join_step, posixpath.sep.
  rewrite Hs, He. destruct (String.eqb_spec path ""); [contradiction|reflexivity].
Qed.

End Strings.

(** ** The output path *)

Section ModelPath.

Local Open Scope string_scope.

Lemma endswith_sep_app (s1 s2 : string) :
  s2 <> "" -> Str.endswith "/" (s1 ++ s2) = Str.endswith "/" s2.
Proof.
  intros Hne. induction s1 as [|d s1 IH]; [reflexivity|].
  change (String d s1 ++ s2) with (String d (s1 ++ s2)).
  cbn [Str.endswith]. rewrite IH.
  destruct (String.eqb_spec (String d (s1 ++ s2)) "/") as [E|_];
    [|reflexivity].
  injection E as _ E. destruct s1, s2; try discriminate. now destruct Hne.
Qed.

(** With a relative, non-empty id and a relative model name, under a
    non-empty directory written without a trailing separator, the
    joined paths are the plain ones. *)
Lemma join_plain (dir training_id model_name : string) :
  dir <> "" -> Str.endswith "/" dir = false ->
  training_id <> "" -> Str.startswith "/" training_id = false ->
  Str.endswith "/" training_id = false ->
  Str.startswith "/" model_name = false ->
  posixpath.join dir [model_name] = dir ++ "/" ++ model_name
  /\ posixpath.join dir [training_id; model_name]
     = dir ++ "/" ++ training_id ++ "/" ++ model_name.
Proof.
  intros Hd Hde Hi His Hie Hm. unfold posixpath.join; cbn [fold_left].
  split; [now apply join_step_plain|].
  rewrite (join_step_plain dir training_id) by assumption.
  rewrite join_step_plain; trivial.
  - now rewrite !str_app_assoc.
  - destruct dir; [now destruct Hd | discriminate].
  - rewrite endswith_sep_app.
    + rewrite (endswith_sep_app "/" training_id); assumption.
    + discriminate.
Qed.

(** C1, as amended: the path follows a three-branch rule whose test on
    the hint is the substring test.  Without a hint the path is the
    join of the default directory, the training id and the model name;
    with a hint in which the training id occurs (as a path component or
    anywhere else) it is the join of the hint and the model name; with a
    hint in which it does not occur it is the join of the hint, the
    training id and the model name. *)
Theorem get_model_path_rule (default_output_dir : string)
    (hint : option string) (model_name training_id : string) :
  let path :=
    _get_model_path default_output_dir hint model_name training_id in
  (hint = None ->
     path = posixpath.join default_output_dir [training_id; model_name])
  /\ (forall dir, hint = Some dir -> occurs_in training_id dir ->
        path = posixpath.join dir [model_name])
  /\ (forall dir, hint = Some dir -> has_component training_id dir = true ->
        path = posixpath.join dir [model_name])
  /\ (forall dir, hint = Some dir -> ~ occurs_in training_id dir ->
        path = posixpath.join dir [training_id; model_name]).
Proof.
  cbv zeta. repeat split.
  - now intros ->.
  - intros dir -> H. apply contains_iff in H. unfold _get_model_path.
    now rewrite H.
  - intros dir -> H. apply component_occurs, contains_iff in H.
    unfold _get_model_path. now rewrite H.
  - intros dir -> H. unfold _get_model_path.
    destruct (Str.contains training_id dir) eqn:E; [|reflexivity].
    now apply contains_iff in E.
Qed.

(** C1, as stated, fails: the id "1234" is no path component of the hint
    "/data/run-1234", yet the code finds it inside the component
    "run-1234" and leaves the id directory out. *)
Lemma get_model_path_id_inside_a_component :
  path_components "/data/run-1234" = [""; "data"; "run-1234"]
  /\ has_component "1234" "/data/run-1234" = false
  /\ _get_model_path "/out" (Some "/data/run-1234") "bar" "1234"
     = "/data/run-1234/bar"
  /\ spec_model_path "/out" (Some "/data/run-1234") "bar" "1234"
     = "/data/run-1234/1234/bar"
  /\ _get_model_path "/out" (Some "/data/run-1234") "bar" "1234"
     <> spec_model_path "/out" (Some "/data/run-1234") "bar" "1234".
Proof. repeat split; try reflexivity. discriminate. Qed.

(** X5: the path rule of the specification and the code give the same
    path whenever the substring test and the component test agree on the
    hint, as they do when the id occurs in it only as a whole component
    or not at all. *)
Lemma get_model_path_agrees (default_output_dir : string)
    (hint : option string) (model_name training_id : string) :
  (forall dir, hint = Some dir ->
     Str.contains training_id dir = has_component training_id dir) ->
  _get_model_path default_output_dir hint model_name training_id
  = spec_model_path default_output_dir hint model_name training_id.
Proof.
  intros H. destruct hint as [dir|]; [|reflexivity].
  unfold _get_model_path, spec_model_path. now rewrite (H dir).
Qed.

Lemma get_model_path_agrees_witness :
  _get_model_path "/out" (Some "/data/1234") "bar" "1234"
  = spec_model_path "/out" (Some "/data/1234") "bar" "1234".
Proof.
  apply get_model_path_agrees. intros dir [= <-]. reflexivity.
Defined.

End ModelPath.

(** ** The executors *)

Section Executors.

Local Open Scope string_scope.

Ltac run_process :=
  unfold SubProcessTrainSaveExecutor.train_and_save_model,
    SubProcessTrainSaveExecutor.cancel,
    Process.set_args, Process.start, Process.terminate, Process.close,
    Process.join, Process.exitcode, Process.poll, Process._check_closed,
    tell, bind, ret, raise, get, modify, emit, set_proc;
  cbn.

Ltac trace_delta :=
  unfold added; cbn; rewrite <- ?app_assoc; apply drop_app_length.

Lemma caikit_not_type_or_value_error (e : exn) :
  isinstance e [TypeError; ValueError] = true ->
  is_CaikitRuntimeException e = false.
Proof. destruct e; [discriminate | reflexivity]. Qed.

(** C8: a failure inside the in-process [train_and_save_model] (raised
    by [train] or by [save]) leaves it unchanged when it is a
    [CaikitRuntimeException], as INVALID_ARGUMENT with the text of the
    original error at the end of the message when it is a [TypeError] or
    a [ValueError] (or of a subclass of these), and as INTERNAL for any
    other [Exception]. *)
Theorem local_failure_classification (module_class : ModuleClass)
    (model_path : string) (kwargs : list (string * string))
    (s : ExecState) (e : exn) :
  fails_with module_class model_path kwargs e ->
  let r := snd (LocalTrainSaveExecutor.train_and_save_model
                  module_class model_path kwargs s) in
  (is_CaikitRuntimeException e = true -> r = Raise e)
  /\ (isinstance e [TypeError; ValueError] = true ->
      r = Raise (CaikitRuntimeException StatusCode.INVALID_ARGUMENT
                   ("Exception raised during training. This may be a problem with your input: "
                    ++ str_of e) (Some e)))
  /\ (is_CaikitRuntimeException e = false ->
      isinstance e [TypeError; ValueError] = false ->
      isinstance e [Exception] = true ->
      r = Raise (CaikitRuntimeException StatusCode.INTERNAL
                   ("Exception raised during training: " ++ str_of e)
                   (Some e))).
Proof.
  intros F r.
  assert (B : exists s',
    (model <- LocalTrainSaveExecutor.run_get_or_throw module_class kwargs ;;
     call (ModelSave model_path) (save model model_path)) s = (s', Raise e)).
  { unfold bind, LocalTrainSaveExecutor.run_get_or_throw, call.
    destruct F as [-> | (model & -> & ->)]; eauto. }
  destruct B as [s' B].
  subst r. unfold LocalTrainSaveExecutor.train_and_save_model, try_except.
  rewrite B. cbn [dispatch catches handler].
  repeat split.
  - intros ->. reflexivity.
  - intros H. rewrite (caikit_not_type_or_value_error _ H), H. reflexivity.
  - intros -> -> ->. reflexivity.
Qed.

Lemma local_failure_classification_witness :
  fails_with Sample.BadParam "/out/id/bar" [] (PyError ValueError "bad param")
  /\ snd (LocalTrainSaveExecutor.train_and_save_model Sample.BadParam
            "/out/id/bar" [] (LocalTrainSaveExecutor.__init__ false))
     = Raise (CaikitRuntimeException StatusCode.INVALID_ARGUMENT
                "Exception raised during training. This may be a problem with your input: bad param"
                (Some (PyError ValueError "bad param"))).
Proof.
  assert (F : fails_with Sample.BadParam "/out/id/bar" []
                (PyError ValueError "bad param")) by (left; reflexivity).
  split; [exact F|].
  pose proof (local_failure_classification Sample.BadParam "/out/id/bar" []
                (LocalTrainSaveExecutor.__init__ false) _ F) as P.
  cbv zeta in P. destruct P as (_ & P & _). apply P. reflexivity.
Defined.

(** X2: a failure inside the in-process [train_and_save_model] that is
    no [Exception] (a [KeyboardInterrupt], say) is not caught by the
    executor and leaves it unchanged. *)
Lemma local_failure_not_an_exception (module_class : ModuleClass)
    (model_path : string) (kwargs : list (string * string))
    (s : ExecState) (e : exn) :
  fails_with module_class model_path kwargs e ->
  isinstance e [Exception] = false ->
  snd (LocalTrainSaveExecutor.train_and_save_model
         module_class model_path kwargs s) = Raise e.
Proof.
  intros F H.
  assert (B : exists s',
    (model <- LocalTrainSaveExecutor.run_get_or_throw module_class kwargs ;;
     call (ModelSave model_path) (save model model_path)) s = (s', Raise e)).
  { unfold bind, LocalTrainSaveExecutor.run_get_or_throw, call.
    destruct F as [-> | (model & -> & ->)]; eauto. }
  destruct B as [s' B].
  unfold LocalTrainSaveExecutor.train_and_save_model, try_except.
  rewrite B. cbn [dispatch catches handler].
  destruct e as [c m ca|c t]; [discriminate|].
  cbn [is_CaikitRuntimeException]. rewrite H.
  destruct (isinstance (PyError c t) [TypeError; ValueError]) eqn:T;
    [|reflexivity].
  destruct c; discriminate.
Qed.

Lemma local_failure_not_an_exception_witness :
  snd (LocalTrainSaveExecutor.train_and_save_model Sample.Interrupted
         "/out/id/bar" [] (LocalTrainSaveExecutor.__init__ false))
  = Raise (PyError KeyboardInterrupt "").
Proof.
  apply local_failure_not_an_exception; [left|]; reflexivity.
Defined.

(** C6, as amended: the in-process [cancel] returns at once and changes
    nothing, so the event is set after the call exactly when it was set
    before it. *)
Theorem local_cancel_does_nothing (s : ExecState) :
  LocalTrainSaveExecutor.cancel s = (s, Return tt).
Proof. reflexivity. Qed.

(** C6, as stated, fails: on a clear event the in-process [cancel]
    returns and the event is still clear. *)
Lemma local_cancel_leaves_event_clear :
  event (LocalTrainSaveExecutor.__init__ false) = false
  /\ snd (LocalTrainSaveExecutor.cancel (LocalTrainSaveExecutor.__init__ false))
     = Return tt
  /\ event (fst (LocalTrainSaveExecutor.cancel
                   (LocalTrainSaveExecutor.__init__ false))) = false.
Proof. repeat split. Qed.

(** X3: in the child, [run] keeps an [Exception] raised by the target on
    the process object and returns normally. *)
Lemma run_captures (super_run : M ExecState unit) (s s' : ExecState)
    (e : exn) :
  super_run s = (s', Raise e) -> isinstance e [Exception] = true ->
  snd (SubProcessTrainSaveExecutor.run super_run s) = Return tt
  /\ error (proc (fst (SubProcessTrainSaveExecutor.run super_run s)))
     = Some e.
Proof.
  intros B H. unfold SubProcessTrainSaveExecutor.run, try_except.
  rewrite B. cbn [dispatch catches handler]. rewrite H. now split.
Qed.

Lemma run_captures_witness :
  snd (SubProcessTrainSaveExecutor.run
         (raise (PyError RuntimeError "boom")) Sample.mid_training)
  = Return tt
  /\ error (proc (fst (SubProcessTrainSaveExecutor.run
                         (raise (PyError RuntimeError "boom"))
                         Sample.mid_training)))
     = Some (PyError RuntimeError "boom").
Proof.
  apply (run_captures _ Sample.mid_training Sample.mid_training);
    reflexivity.
Defined.

(** The child of a training with a bad parameter ends with the classified
    error on its process object. *)
Example child_main_bad_param :
  error (proc (fst (SubProcessTrainSaveExecutor.child_main Sample.BadParam
                      "/out/id/bar" [] Sample.mid_training)))
  = Some (CaikitRuntimeException StatusCode.INVALID_ARGUMENT
            "Exception raised during training. This may be a problem with your input: bad param"
            (Some (PyError ValueError "bad param"))).
Proof. reflexivity. Qed.

(** X4: the order in which the specification lists the outcomes after the
    join and the order of the code give the same outcome whenever no
    generic exception on the process object meets an exit status other
    than 0. *)
Lemma subprocess_outcome_agrees (module_class : ModuleClass)
    (model_path : string) (kwargs : list (string * string))
    (s0 : ExecState) :
  startable s0 -> event s0 = false ->
  (forall e, error (proc s0) = Some e ->
     is_CaikitRuntimeException e = true \/ joined_exitcode (child s0) = 0%Z) ->
  snd (SubProcessTrainSaveExecutor.train_and_save_model
         module_class model_path kwargs s0)
  = spec_after_join (error (proc s0)) (joined_exitcode (child s0)).
Proof.
  destruct s0 as [ev [args popen closed err] [pl code] tr].
  intros [Hp Hc] He H; cbn in Hp, Hc, He, H; subst popen closed ev.
  cbn [child joined_exitcode proc error].
  unfold spec_after_join, spec_by_status.
  run_process.
  destruct err as [e|]; cbn.
  - destruct (is_CaikitRuntimeException e) eqn:K; cbn; [reflexivity|].
    destruct (H e eq_refl) as [? | ->]; [congruence | reflexivity].
  - unfold EX_OK.
    destruct (Z.eqb_spec code OOM_EXIT_CODE) as [-> | O]; [reflexivity|].
    destruct (Z.eqb_spec code 0) as [-> | Z0]; [reflexivity|]. cbn.
    destruct (Z.eqb_spec code OOM_EXIT_CODE); [contradiction | reflexivity].
Qed.

Lemma subprocess_outcome_agrees_witness :
  snd (SubProcessTrainSaveExecutor.train_and_save_model
         Sample.SampleBlock "/out/id/bar" []
         (SubProcessTrainSaveExecutor.__init__ false Sample.oom_killed))
  = spec_after_join
      (error (proc (SubProcessTrainSaveExecutor.__init__ false
                      Sample.oom_killed)))
      (joined_exitcode Sample.oom_killed).
Proof.
  apply subprocess_outcome_agrees;
    [split; reflexivity | reflexivity | discriminate].
Defined.

(** C4, as amended: when the event is already set, the child process is
    started all the same; [cancel] then runs at once on the started
    process and nothing else follows: the child is sent the termination
    signal, the call ends by raising and the child is never joined.  When
    the child has stopped by the time [close] polls it, what is raised is
    CANCELLED. *)
Theorem subprocess_token_set_cancels_after_start
    (module_class : ModuleClass) (model_path : string)
    (kwargs : list (string * string)) (s0 : ExecState) :
  startable s0 -> event s0 = true ->
  let started :=
    fst ((Process.set_args module_class model_path kwargs ;; Process.start)
           s0) in
  let s := fst (SubProcessTrainSaveExecutor.train_and_save_model
                  module_class model_path kwargs s0) in
  let r := snd (SubProcessTrainSaveExecutor.train_and_save_model
                  module_class model_path kwargs s0) in
  added s0 started = [ProcStart]
  /\ SubProcessTrainSaveExecutor.train_and_save_model
       module_class model_path kwargs s0
     = SubProcessTrainSaveExecutor.cancel started
  /\ (exists rest, added s0 s = ProcStart :: ProcTerminate :: rest
                   /\ ~ In ProcJoin rest)
  /\ (exists e, r = Raise e)
  /\ (forall c, polled (child s0) = Some c ->
        added s0 s
        = [ProcStart; ProcTerminate; ProcClose; Log "<RUN57624710E>"]
        /\ r = Raise (CaikitRuntimeException StatusCode.CANCELLED
                        "Training request terminated" None)).
Proof.
  destruct s0 as [ev [args popen closed err] [pl code] tr].
  intros [Hp Hc] He; cbn in Hp, Hc, He; subst popen closed ev.
  cbv zeta. cbn [child polled].
  run_process.
  split; [trace_delta|].
  destruct pl as [c|]; cbn.
  - split; [reflexivity|].
    split; [exists [ProcClose; Log "<RUN57624710E>"]; split;
              [trace_delta | cbn; intuition discriminate]|].
    split; [eauto|].
    intros _ _. split; [trace_delta | reflexivity].
  - split; [reflexivity|].
    split; [exists []; split; [trace_delta | cbn; tauto]|].
    split; [eauto|]. discriminate.
Qed.

Lemma subprocess_token_set_cancels_after_start_witness :
  startable (SubProcessTrainSaveExecutor.__init__ true Sample.quiet_child)
  /\ snd (SubProcessTrainSaveExecutor.train_and_save_model
            Sample.SampleBlock "/out/id/bar" []
            (SubProcessTrainSaveExecutor.__init__ true Sample.quiet_child))
     = Raise (CaikitRuntimeException StatusCode.CANCELLED
                "Training request terminated" None).
Proof.
  assert (S0 : startable
                 (SubProcessTrainSaveExecutor.__init__ true Sample.quiet_child))
    by (split; reflexivity).
  split; [exact S0|].
  pose proof (subprocess_token_set_cancels_after_start Sample.SampleBlock
                "/out/id/bar" [] _ S0 eq_refl) as P.
  cbv zeta in P. destruct P as (_ & _ & _ & _ & P).
  now destruct (P 0%Z eq_refl).
Defined.

(** C4, as stated, fails: with the event set the child process is
    started before [cancel] runs; the call is not [cancel] alone. *)
Lemma subprocess_token_set_child_started :
  added (SubProcessTrainSaveExecutor.__init__ true Sample.quiet_child)
    (fst (SubProcessTrainSaveExecutor.train_and_save_model
            Sample.SampleBlock "/out/id/bar" []
            (SubProcessTrainSaveExecutor.__init__ true Sample.quiet_child)))
  = [ProcStart; ProcTerminate; ProcClose; Log "<RUN57624710E>"]
  /\ In ProcStart
       (trace (fst (SubProcessTrainSaveExecutor.train_and_save_model
                      Sample.SampleBlock "/out/id/bar" []
                      (SubProcessTrainSaveExecutor.__init__ true
                         Sample.quiet_child))))
  /\ SubProcessTrainSaveExecutor.train_and_save_model
       Sample.SampleBlock "/out/id/bar" []
       (SubProcessTrainSaveExecutor.__init__ true Sample.quiet_child)
     <> SubProcessTrainSaveExecutor.cancel
          (SubProcessTrainSaveExecutor.__init__ true Sample.quiet_child).
Proof.
  split; [reflexivity|]. split; [cbn; tauto|]. discriminate.
Qed.

(** X1: what [cancel] does, state by state: it has no condition of its own,
    calls [terminate], then [close], and never returns normally.  On a
    process that was started and is not closed, whose child has stopped
    by the time [close] polls it, the child is signalled and released and
    CANCELLED is raised; CANCELLED is raised in no other state. *)
Lemma subprocess_cancel_outcome (s : ExecState) :
  let s' := fst (SubProcessTrainSaveExecutor.cancel s) in
  let r := snd (SubProcessTrainSaveExecutor.cancel s) in
  (exists e, r = Raise e)
  /\ (forall po c,
        _closed (proc s) = false -> _popen (proc s) = Some po ->
        status_at_close s po = Some c ->
        added s s' = [ProcTerminate; ProcClose; Log "<RUN57624710E>"]
        /\ _popen (proc s') = None /\ _closed (proc s') = true
        /\ r = Raise (CaikitRuntimeException StatusCode.CANCELLED
                        "Training request terminated" None))
  /\ (forall code message cause,
        r = Raise (CaikitRuntimeException code message cause) ->
        _closed (proc s) = false
        /\ exists po c, _popen (proc s) = Some po
                        /\ status_at_close s po = Some c).
Proof.
  destruct s as [ev [args popen closed err] [pl code] tr].
  cbv zeta. unfold status_at_close. cbn [proc child _closed _popen polled].
  run_process.
  destruct closed; cbn.
  { split; [eauto|]. split; [discriminate|]. discriminate. }
  destruct popen as [[rc]|]; cbn.
  2:{ split; [eauto|]. split; [discriminate|]. discriminate. }
  destruct rc as [c|]; cbn.
  - split; [eauto|]. split.
    + intros po c' _ [= <-] _. cbn. repeat split. trace_delta.
    + intros _ _ _ _. split; [reflexivity|]. eexists _, _; cbn; eauto.
  - destruct pl as [c|]; cbn.
    + split; [eauto|]. split.
      * intros po c' _ [= <-] _. cbn. repeat split. trace_delta.
      * intros _ _ _ _. split; [reflexivity|]. eexists _, _; cbn; eauto.
    + split; [eauto|]. split.
      * intros po c' _ [= <-]. discriminate.
      * discriminate.
Qed.

(** C5: [cancel] misses the cancellation it attempts.  On a child still
    training when [close] polls it, right after the signal, [cancel]
    raises the [ValueError] of [close] and the process is not released;
    on a process never started it raises the [AttributeError] of
    [terminate] and touches nothing.  CANCELLED is raised in neither
    case. *)
Lemma subprocess_cancel_not_always_cancelled :
  SubProcessTrainSaveExecutor.cancel
    (SubProcessTrainSaveExecutor.__init__ false Sample.quiet_child)
  = (SubProcessTrainSaveExecutor.__init__ false Sample.quiet_child,
     Raise (PyError AttributeError
              "'NoneType' object has no attribute 'terminate'"))
  /\ _popen (proc Sample.mid_training) = Some {| returncode := None |}
  /\ snd (SubProcessTrainSaveExecutor.cancel Sample.mid_training)
     = Raise (PyError ValueError
                "Cannot close a process while it is still running. You should first call join() or terminate().")
  /\ _closed (proc (fst (SubProcessTrainSaveExecutor.cancel
                           Sample.mid_training))) = false
  /\ _popen (proc (fst (SubProcessTrainSaveExecutor.cancel
                          Sample.mid_training)))
     = Some {| returncode := None |}.
Proof. repeat split. Qed.

End Executors.

(** ** Computations that respect a preorder on states *)

Create HintDb respects discriminated.

Section Respects.

Context {S : Type} (R : relation S) `{!PreOrder R}.

Lemma respects_ret {A} (a : A) : respects R (ret a).
Proof. intros s. reflexivity. Qed.

Lemma respects_raise {A} (e : exn) : respects R (@raise S A e).
Proof. intros s. reflexivity. Qed.

Lemma respects_lift {A} (r : result A) : respects R (lift r).
Proof. intros s. reflexivity. Qed.

Lemma respects_get : respects R get.
Proof. intros s. reflexivity. Qed.

Lemma respects_modify (f : S -> S) :
  (forall s, R s (f s)) -> respects R (modify f).
Proof. intros H s. apply H. Qed.

Lemma respects_bind {A B} (m : M S A) (k : A -> M S B) :
  respects R m -> (forall a, respects R (k a)) -> respects R (bind m k).
Proof.
  intros Hm Hk s. unfold bind. specialize (Hm s).
  destruct (m s) as [s1 [a|e]]; cbn in Hm |- *; [|exact Hm].
  etransitivity; [exact Hm | apply Hk].
Qed.

Lemma respects_dispatch {A} (clauses : list (except_clause S A)) (e : exn) :
  Forall (fun c => forall e, respects R (handler c e)) clauses ->
  respects R (dispatch clauses e).
Proof.
  induction 1 as [|c cs Hc _ IH]; cbn; [apply respects_raise|].
  destruct (catches c e); [apply Hc | apply IH].
Qed.

Lemma respects_try_except {A} (body : M S A)
    (clauses : list (except_clause S A)) :
  respects R body ->
  Forall (fun c => forall e, respects R (handler c e)) clauses ->
  respects R (try_except body clauses).
Proof.
  intros Hb Hc s. unfold try_except. specialize (Hb s).
  destruct (body s) as [s1 [a|e]]; cbn in Hb |- *; [exact Hb|].
  etransitivity; [exact Hb | now apply respects_dispatch].
Qed.

End Respects.

Ltac respects_steps :=
  repeat first
    [ solve [auto 1 with respects nocore]
    | match goal with
      | |- PreOrder _ => typeclasses eauto
      | |- forall _, _ => intro
      | |- Forall _ _ => constructor
      | |- respects _ (match ?x with _ => _ end) => destruct x
      end
    | progress cbn [handler]
    | apply respects_ret | apply respects_raise | apply respects_lift
    | apply respects_get | apply respects_bind | apply respects_try_except ].

(** ** What the executors leave on the trace *)

Section Quiet.

Lemma loads_app (l1 l2 : list effect) :
  loads (l1 ++ l2) = loads l1 + loads l2.
Proof. unfold loads. now rewrite filter_app, length_app. Qed.

Global Instance grew_preorder : PreOrder grew.
Proof.
  split.
  - intros s. exists []. now rewrite app_nil_r.
  - intros s1 s2 s3 (l1 & E1 & L1) (l2 & E2 & L2). exists (l1 ++ l2).
    rewrite E2, E1, app_assoc, loads_app, L1, L2. now split.
Qed.

Lemma grew_set_proc (f : ExecState -> Process) :
  respects grew (modify (fun s => set_proc (f s) s)).
Proof. intros s. exists []. cbn. now rewrite app_nil_r. Qed.

Lemma grew_tell (x : effect) : is_load x = false -> respects grew (tell x).
Proof.
  intros H s. exists [x]. split; [reflexivity|].
  unfold loads. cbn. now rewrite H.
Qed.

Lemma grew_call {A} (x : effect) (r : result A) :
  is_load x = false -> respects grew (call x r).
Proof.
  intros H s. exists [x]. split; [reflexivity|].
  unfold loads. cbn. now rewrite H.
Qed.

Ltac quiet_steps :=
  repeat first
    [ progress respects_steps
    | apply grew_set_proc
    | apply grew_tell; reflexivity | apply grew_call; reflexivity ].

Lemma grew_check_closed : respects grew Process._check_closed.
Proof. unfold Process._check_closed. quiet_steps. Qed.
Hint Resolve grew_check_closed : respects.

Lemma grew_poll (po : Popen) : respects grew (Process.poll po).
Proof. unfold Process.poll. quiet_steps. Qed.
Hint Resolve grew_poll : respects.

Lemma grew_start : respects grew Process.start.
Proof. unfold Process.start. quiet_steps. Qed.

Lemma grew_terminate : respects grew Process.terminate.
Proof. unfold Process.terminate. quiet_steps. Qed.

Lemma grew_close : respects grew Process.close.
Proof. unfold Process.close. quiet_steps. Qed.

Lemma grew_join : respects grew Process.join.
Proof. unfold Process.join. quiet_steps. Qed.

Lemma grew_exitcode : respects grew Process.exitcode.
Proof. unfold Process.exitcode. quiet_steps. Qed.
Hint Resolve grew_start grew_terminate grew_close grew_join
  grew_exitcode : respects.

Lemma grew_cancel : respects grew SubProcessTrainSaveExecutor.cancel.
Proof. unfold SubProcessTrainSaveExecutor.cancel. quiet_steps. Qed.
Hint Resolve grew_cancel : respects.

(** The in-process executor only adds to the trace, and adds no load. *)
Lemma local_grew (module_class : ModuleClass) (model_path : string)
    (kwargs : list (string * string)) :
  respects grew (LocalTrainSaveExecutor.train_and_save_model
                   module_class model_path kwargs).
Proof.
  unfold LocalTrainSaveExecutor.train_and_save_model,
    LocalTrainSaveExecutor.run_get_or_throw.
  quiet_steps.
Qed.

(** So does the child-process executor. *)
Lemma subprocess_grew (module_class : ModuleClass) (model_path : string)
    (kwargs : list (string * string)) :
  respects grew (SubProcessTrainSaveExecutor.train_and_save_model
                   module_class model_path kwargs).
Proof.
  unfold SubProcessTrainSaveExecutor.train_and_save_model, Process.set_args.
  quiet_steps.
Qed.

Lemma train_and_save_grew (subprocess : bool) (kw : Kwargs) :
  respects grew (train_and_save_model subprocess kw).
Proof.
  unfold train_and_save_model. destruct subprocess;
    [apply subprocess_grew | apply local_grew].
Qed.

End Quiet.

(** ** The pool and the registry *)

Section Registry.

Global Instance keeps_ids_preorder : PreOrder keeps_ids.
Proof.
  split.
  - intros s tid H. exact H.
  - intros s1 s2 s3 H12 H23 tid H. apply H23, H12, H.
Qed.

Lemma keeps_set_futures (f : State -> list Future.t) :
  respects keeps_ids (modify (fun s => set_futures (f s) s)).
Proof. intros s tid H. exact H. Qed.

Lemma keeps_set_callbacks (f : State -> list nat) :
  respects keeps_ids (modify (fun s => set_callbacks (f s) s)).
Proof. intros s tid H. exact H. Qed.

Lemma keeps_note (x : effect) : respects keeps_ids (note x).
Proof. intros s tid H. exact H. Qed.

Lemma keeps_insert (training_id : string) (fut : nat) :
  respects keeps_ids
    (modify (fun s =>
       set_training_map (<[training_id := fut]> (training_map s)) s)).
Proof.
  intros s tid H. cbn. destruct (decide (training_id = tid)) as [->|ne].
  - rewrite lookup_insert_eq. eauto.
  - now rewrite lookup_insert_ne.
Qed.
Hint Resolve keeps_note keeps_insert : respects.

Lemma keeps_submit (t : Target) (kw : Kwargs) (subprocess : bool)
    (ex : ExecState) :
  respects keeps_ids (Pool.submit t kw subprocess ex).
Proof.
  unfold Pool.submit. respects_steps.
  apply (keeps_set_futures (fun s => futures a ++ _)).
Qed.

Lemma keeps_result (self : Servicer) (fut : nat) :
  respects keeps_ids (Pool.result_ self fut).
Proof.
  unfold Pool.result_. respects_steps.
  intros s tid H. unfold modify. cbn [fst].
  destruct (Pool.drain self (S fut) (futures s)) as [fs l]. exact H.
Qed.

Lemma keeps_cancel_future (fut : nat) : respects keeps_ids (cancel_future fut).
Proof.
  unfold cancel_future. respects_steps.
  apply (keeps_set_futures (fun _ => _)).
Qed.
Hint Resolve keeps_submit keeps_result keeps_cancel_future : respects.

Lemma keeps_run_training_job (self : Servicer) (request : Request)
    (model : ModuleClass) (training_id : string) (dir : option string)
    (child : ChildView) (wait : bool) :
  respects keeps_ids
    (run_training_job self request model training_id dir child wait).
Proof.
  unfold run_training_job, run_async. respects_steps.
  apply (keeps_set_callbacks (fun s => callbacks s ++ _)).
Qed.
Hint Resolve keeps_run_training_job : respects.

Lemma keeps_Train (self : Servicer) (request : Request) (uuid : string)
    (child : ChildView) :
  respects keeps_ids (Train self request uuid child).
Proof.
  unfold Train, Train_clauses, Train_body, resolve_model. respects_steps.
Qed.

(** No operation of the servicer takes a training id out of the
    registry. *)
Lemma steps_keep_ids (self : Servicer) (s s' : State) :
  steps self s s' -> keeps_ids s s'.
Proof.
  induction 1 as [s|s1 s2 s3 H _ IH]; [reflexivity|].
  etransitivity; [|exact IH]. destruct H.
  - apply keeps_Train.
  - apply keeps_run_training_job.
  - apply keeps_cancel_future.
  - apply keeps_result.
Qed.

Lemma drain_length (self : Servicer) (n : nat) (fs : list Future.t) :
  length (fst (Pool.drain self n fs)) = length fs.
Proof.
  revert fs; induction n as [|n IH]; intros [|f fs]; cbn; trivial.
  destruct (Pool.settle self f) as [f' l]. specialize (IH fs).
  destruct (Pool.drain self n fs) as [rest l']. cbn in *. now rewrite IH.
Qed.

(** Draining up to the last future settles it after those before it. *)
Lemma drain_last (self : Servicer) (fs : list Future.t) (f : Future.t) :
  Pool.drain self (S (length fs)) (fs ++ [f])
  = (fst (Pool.drain self (length fs) fs) ++ [fst (Pool.settle self f)],
     snd (Pool.drain self (length fs) fs) ++ snd (Pool.settle self f)).
Proof.
  induction fs as [|g fs IH].
  - cbn. destruct (Pool.settle self f) as [f' l]. cbn. now rewrite app_nil_r.
  - change (Pool.drain self (S (length (g :: fs))) ((g :: fs) ++ [f]))
      with (let '(g', l) := Pool.settle self g in
            let '(rest, l') :=
              Pool.drain self (S (length fs)) (fs ++ [f]) in
            (g' :: rest, l ++ l')).
    rewrite IH. cbn. destruct (Pool.settle self g) as [g' l].
    destruct (Pool.drain self (length fs) fs) as [rest l']. cbn.
    now rewrite app_assoc.
Qed.

End Registry.

(** ** The pool between operations *)

Section IdlePool.

Global Instance stays_idle_preorder : PreOrder stays_idle.
Proof.
  split.
  - intros s H. exact H.
  - intros s1 s2 s3 H12 H23 H. apply H23, H12, H.
Qed.

Lemma settle_idle (self : Servicer) (f : Future.t) :
  Pool.running f = false ->
  Pool.running (fst (Pool.settle self f)) = false
  /\ Future._state (fst (Pool.settle self f)) <> Future.PENDING.
Proof.
  unfold Pool.settle, Pool.running. intros H.
  destruct (Future._state f) eqn:E; cbn; rewrite ?E; try easy.
  destruct (call_target self (Future.subprocess f) (Future.target f)
              (Future.kwargs f) (Future.executor f)); cbn. easy.
Qed.

Lemma drain_idle (self : Servicer) (n : nat) (fs : list Future.t) :
  Forall (fun f => Pool.running f = false) fs ->
  Forall (fun f => Pool.running f = false) (fst (Pool.drain self n fs))
  /\ forall i f, i < n -> fst (Pool.drain self n fs) !! i = Some f ->
                 Future._state f <> Future.PENDING.
Proof.
  revert fs; induction n as [|n IH]; intros fs H.
  - destruct fs; cbn; (split; [exact H | intros; lia]).
  - destruct fs as [|g fs]; cbn; [split; [exact H | intros ? ? _ [=]]|].
    apply Forall_cons in H as [Hg Hfs].
    destruct (settle_idle self g Hg) as [G1 G2].
    destruct (Pool.settle self g) as [g' l]. destruct (IH fs Hfs) as [I1 I2].
    destruct (Pool.drain self n fs) as [rest l']. cbn in *. split.
    + now constructor.
    + intros [|i] f Hi; cbn; [now intros [= <-] | apply I2; lia].
Qed.

Lemma result_answers (self : Servicer) (fut : nat) (s : State) :
  idle_pool s -> fut < length (futures s) ->
  exists f,
    futures (fst (Pool.result_ self fut s)) !! fut = Some f
    /\ ((exists r, Future._state f = Future.FINISHED r
                   /\ snd (Pool.result_ self fut s) = r)
        \/ (Future._state f = Future.CANCELLED
            /\ snd (Pool.result_ self fut s)
               = Raise (PyError CancelledError ""))).
Proof.
  intros I L. destruct (drain_idle self (S fut) (futures s) I) as [D1 D2].
  pose proof (drain_length self (S fut) (futures s)) as DL.
  unfold Pool.result_, bind, modify, get, lift, raise.
  cbn -[Pool.drain].
  destruct (Pool.drain self (S fut) (futures s)) as [fs l]. cbn in *.
  destruct (lookup_lt_is_Some_2 fs fut) as [f Hf]; [lia|].
  rewrite Hf. exists f.
  pose proof (D2 fut f (Nat.lt_succ_diag_r fut) Hf) as NP.
  pose proof (proj1 (Forall_lookup _ _) D1 fut f Hf) as NR.
  unfold Pool.running in NR.
  destruct (Future._state f) as [| | |r]; cbn; try easy.
  - rewrite Hf. split; [reflexivity|]. now right.
  - rewrite Hf. split; [reflexivity|]. left. now exists r.
Qed.

Lemma idle_set_training_map (f : State -> gmap string nat) :
  respects stays_idle (modify (fun s => set_training_map (f s) s)).
Proof. intros s H. exact H. Qed.

Lemma idle_set_callbacks (f : State -> list nat) :
  respects stays_idle (modify (fun s => set_callbacks (f s) s)).
Proof. intros s H. exact H. Qed.

Lemma idle_note (x : effect) : respects stays_idle (note x).
Proof. intros s H. exact H. Qed.
Hint Resolve idle_note : respects.

Lemma idle_submit (t : Target) (kw : Kwargs) (subprocess : bool)
    (ex : ExecState) :
  respects stays_idle (Pool.submit t kw subprocess ex).
Proof.
  intros s H. unfold Pool.submit, bind, get, modify, ret. cbn.
  apply Forall_app. split; [exact H|]. now constructor.
Qed.

Lemma idle_result (self : Servicer) (fut : nat) :
  respects stays_idle (Pool.result_ self fut).
Proof.
  intros s H. destruct (drain_idle self (S fut) (futures s) H) as [D _].
  unfold Pool.result_, bind, modify, get, lift, raise.
  cbn -[Pool.drain].
  destruct (Pool.drain self (S fut) (futures s)) as [fs l]. cbn in *.
  destruct (fs !! fut) as [f|]; [|exact D].
  now destruct (Future._state f) as [| | |[]].
Qed.

Lemma idle_cancel_future (fut : nat) :
  respects stays_idle (cancel_future fut).
Proof.
  intros s H. unfold cancel_future, bind, get, modify, ret. cbn.
  destruct (futures s !! fut) as [f|] eqn:E; [|exact H].
  pose proof (proj1 (Forall_lookup _ _) H fut f E) as NR.
  rewrite NR. exact H.
Qed.
Hint Resolve idle_submit idle_result idle_cancel_future : respects.

Lemma idle_run_training_job (self : Servicer) (request : Request)
    (model : ModuleClass) (training_id : string) (dir : option string)
    (child : ChildView) (wait : bool) :
  respects stays_idle
    (run_training_job self request model training_id dir child wait).
Proof.
  unfold run_training_job, run_async. respects_steps.
  - apply (idle_set_training_map (fun s => <[_ := _]> (training_map s))).
  - apply (idle_set_callbacks (fun s => callbacks s ++ _)).
Qed.
Hint Resolve idle_run_training_job : respects.

Lemma idle_Train (self : Servicer) (request : Request) (uuid : string)
    (child : ChildView) :
  respects stays_idle (Train self request uuid child).
Proof.
  unfold Train, Train_clauses, Train_body, resolve_model. respects_steps.
Qed.

(** Whatever the servicer does, its pool is idle between operations:
    the branches of [result_] that answer for a future caught in its
    call are never taken. *)
Lemma steps_stay_idle (self : Servicer) (s s' : State) :
  steps self s s' -> idle_pool s -> idle_pool s'.
Proof.
  induction 1 as [s|s1 s2 s3 H _ IH]; [trivial|].
  intros I. apply IH. destruct H.
  - now apply idle_Train.
  - now apply idle_run_training_job.
  - now apply idle_cancel_future.
  - now apply idle_result.
Qed.

End IdlePool.

(** ** Launching *)

Section Launch.

Lemma added_grew (s s' : ExecState) (l : list effect) :
  trace s' = trace s ++ l -> added s s' = l.
Proof. intros E. unfold added. rewrite E. apply drop_app_length. Qed.

(** C9: [run_async] submits one pending future.  With auto-load on,
    when the worker runs it and train-and-save returns, the model
    manager's load is invoked exactly once, after everything
    train-and-save did, and a load that raises is the outcome of the
    future; when train-and-save raises, load is not invoked and the
    future carries that error.  With auto-load off, load is not
    invoked. *)
Theorem auto_load_once_after_success (self : Servicer) (subprocess : bool)
    (runnable_executor : ExecState) (kw : Kwargs)
    (model_name model_path : string) (s : State) :
  exists f,
    run_async self subprocess runnable_executor kw model_name model_path s
    = (set_futures (futures s ++ [f]) s, Return (length (futures s)))
    /\ Future._state f = Future.PENDING
    /\ let ran := train_and_save_model subprocess kw runnable_executor in
       let done := Pool.settle self f in
       let load := load_model (_model_manager self) model_name model_path
                     "standalone" in
       (auto_load_trained_model self = true ->
          (snd ran = Return tt ->
             loads (snd done) = 1
             /\ loads (added runnable_executor (fst ran)) = 0
             /\ (exists after,
                   snd done
                   = added runnable_executor (fst ran)
                     ++ LoadModel model_name model_path "standalone" :: after
                   /\ loads after = 0)
             /\ (forall e, load = Raise e ->
                   Future._state (fst done) = Future.FINISHED (Raise e)))
          /\ (forall e, snd ran = Raise e ->
                loads (snd done) = 0
                /\ Future._state (fst done) = Future.FINISHED (Raise e)))
       /\ (auto_load_trained_model self = false -> loads (snd done) = 0).
Proof.
  exists {| Future._state := Future.PENDING;
            Future.target :=
              if auto_load_trained_model self
              then train_save_then_load model_name model_path
              else train_and_save;
            Future.kwargs := kw;
            Future.subprocess := subprocess;
            Future.executor := runnable_executor |}.
  split; [reflexivity|]. split; [reflexivity|].
  cbv zeta. unfold Pool.settle. cbn [Future._state Future.target
    Future.kwargs Future.subprocess Future.executor].
  destruct (train_and_save_grew subprocess kw runnable_executor)
    as (l & E & L).
  pose proof (added_grew _ _ _ E) as EA.
  split.
  - intros ->. unfold call_target, _load_trained_model, bind, call, ret.
    destruct (train_and_save_model subprocess kw runnable_executor)
      as [ex [[]|e]]; cbn [fst snd] in *.
    + split; [|discriminate]. intros _.
      destruct (load_model (_model_manager self) model_name model_path
                  "standalone") as [[]|e] eqn:LD; cbn [fst snd].
      * destruct (retrieve_model (_model_manager self) model_name);
          cbn [fst snd emit trace]; rewrite E, <- !app_assoc, drop_app_length;
          rewrite loads_app, L.
        all: rewrite EA; repeat split; try reflexivity; try discriminate;
          try exact L.
        all: now exists [RetrieveModel model_name].
      * cbn [emit trace]. rewrite E, <- !app_assoc, drop_app_length.
        rewrite loads_app, L.
        rewrite EA. repeat split; try reflexivity; try exact L.
        -- now exists [].
        -- now intros e' [= <-].
    + split; [discriminate|]. intros e' [= <-].
      cbn [fst snd]. rewrite E, drop_app_length. now split.
  - intros ->. unfold call_target, bind, ret.
    destruct (train_and_save_model subprocess kw runnable_executor)
      as [ex [[]|e]]; cbn [fst snd] in *; now rewrite E, drop_app_length.
Qed.


(** A sample training with auto-load: one load, after train and save. *)
Example auto_load_sample :
  snd (Pool.settle (Sample.servicer true false)
         {| Future._state := Future.PENDING;
            Future.target := train_save_then_load "bar" "/out/id/bar";
            Future.kwargs := {| module_class := Sample.SampleBlock;
                                kw_model_path := "/out/id/bar";
                                train_kwargs := [] |};
            Future.subprocess := false;
            Future.executor := LocalTrainSaveExecutor.__init__ false |})
  = [ModuleTrain "SampleBlock"; ModelSave "/out/id/bar";
     LoadModel "bar" "/out/id/bar" "standalone"; RetrieveModel "bar"].
Proof. reflexivity. Qed.

Lemma lookup_settled (self : Servicer) (fs : list Future.t) (f : Future.t) :
  fst (Pool.drain self (S (length fs)) (fs ++ [f])) !! length fs
  = Some (fst (Pool.settle self f)).
Proof.
  rewrite drain_last. cbn [fst].
  rewrite lookup_app_r by (rewrite drain_length; lia).
  now rewrite drain_length, Nat.sub_diag.
Qed.

Lemma settle_pending (self : Servicer) (f : Future.t) :
  Future._state f = Future.PENDING ->
  exists outcome,
    Future._state (fst (Pool.settle self f)) = Future.FINISHED outcome.
Proof.
  intros P. unfold Pool.settle. rewrite P.
  destruct (call_target self (Future.subprocess f) (Future.target f)
              (Future.kwargs f) (Future.executor f)) as [ex r].
  now exists r.
Qed.

Lemma result_training_map (self : Servicer) (fut : nat) (s : State) :
  training_map (fst (Pool.result_ self fut s)) = training_map s.
Proof.
  unfold Pool.result_, bind, modify, get, lift, raise. cbn -[Pool.drain].
  destruct (Pool.drain self (S fut) (futures s)) as [fs l]. cbn.
  destruct (fs !! fut) as [f|]; [|reflexivity].
  now destruct (Future._state f) as [| | |[]].
Qed.

(** A launch whose request maps to keyword arguments submits one
    future, registers it and returns the job. *)
Lemma run_training_job_launch (self : Servicer) (request : Request)
    (model : ModuleClass) (training_id : string) (dir : option string)
    (child : ChildView) (s : State)
    (request_kwargs : list (string * string)) :
  build_caikit_library_request_dict self request model
  = Return request_kwargs ->
  exists f,
    Future._state f = Future.PENDING
    /\ run_training_job self request model training_id dir child false s
       = (set_callbacks (callbacks s ++ [length (futures s)])
            (set_training_map
               (<[training_id := length (futures s)]> (training_map s))
               (set_futures (futures s ++ [f]) s)),
          Return {| job_model_name := model_name request;
                    training_id := training_id |}).
Proof.
  intros B. eexists {| Future._state := Future.PENDING |}.
  split; [reflexivity|].
  unfold run_training_job, run_async, Pool.submit, bind, lift, get,
    modify, ret. rewrite B. reflexivity.
Qed.

(** With [wait], the launch is followed by the wait on the result. *)
Lemma run_training_job_wait (self : Servicer) (request : Request)
    (model : ModuleClass) (training_id : string) (dir : option string)
    (child : ChildView) (s : State)
    (request_kwargs : list (string * string)) :
  build_caikit_library_request_dict self request model
  = Return request_kwargs ->
  run_training_job self request model training_id dir child true s
  = (let '(s', r) :=
       Pool.result_ self (length (futures s))
         (fst (run_training_job self request model training_id dir child
                 false s)) in
     (s', match r with
          | Return _ => Return {| job_model_name := model_name request;
                                  training_id := training_id |}
          | Raise e => Raise e
          end)).
Proof.
  intros B.
  unfold run_training_job, run_async, Pool.submit, bind, lift, get,
    modify, ret. rewrite B. cbn -[Pool.result_].
  match goal with
  | |- context [Pool.result_ ?a ?b ?c] => destruct (Pool.result_ a b c) as [s' [v|e]]
  end; reflexivity.
Qed.


(** Waiting for the future submitted last settles it and hands back its
    outcome. *)
Lemma result_of_last (self : Servicer) (s : State) (fs : list Future.t)
    (f : Future.t) :
  futures s = fs ++ [f] -> Future._state f = Future.PENDING ->
  exists f' outcome,
    futures (fst (Pool.result_ self (length fs) s)) !! length fs = Some f'
    /\ Future._state f' = Future.FINISHED outcome
    /\ snd (Pool.result_ self (length fs) s) = outcome.
Proof.
  intros E P. destruct (settle_pending self f P) as [outcome ST].
  exists (fst (Pool.settle self f)), outcome.
  pose proof (lookup_settled self fs f) as LK.
  unfold Pool.result_, bind, modify, get, lift, raise.
  cbn -[Pool.drain]. rewrite E.
  destruct (Pool.drain self (S (length fs)) (fs ++ [f])) as [fs' l].
  cbn in LK |- *. rewrite LK, ST. cbn. now rewrite LK.
Qed.

(** C10: in a call of [run_training_job] that gets as far as
    submitting (the request maps to keyword arguments), the registry
    holds the future under the training id before the wait begins:
    the wait starts from the state a launch without wait ends in.  When
    the wait raises because the training failed, the caller gets the
    error and the entry is still there; and no later operation of the
    servicer takes it out. *)
Theorem registry_keeps_entry_of_failed_training (self : Servicer)
    (request : Request) (model : ModuleClass) (training_id : string)
    (dir : option string) (child : ChildView) (wait : bool) (s : State)
    (request_kwargs : list (string * string)) :
  build_caikit_library_request_dict self request model
  = Return request_kwargs ->
  let launched :=
    run_training_job self request model training_id dir child false s in
  let done :=
    run_training_job self request model training_id dir child wait s in
  let fut := length (futures s) in
  let job := {| job_model_name := model_name request;
                training_id := training_id |} in
  training_map (fst launched) !! training_id = Some fut
  /\ snd launched = Return job
  /\ training_map (fst done) !! training_id = Some fut
  /\ (wait = true ->
        fst done = fst (Pool.result_ self fut (fst launched))
        /\ exists f outcome,
             futures (fst done) !! fut = Some f
             /\ Future._state f = Future.FINISHED outcome
             /\ (forall e, outcome = Raise e -> snd done = Raise e)
             /\ (forall v, outcome = Return v -> snd done = Return job))
  /\ (forall s', steps self (fst done) s' ->
        is_Some (training_map s' !! training_id)).
Proof.
  intros B. cbv zeta.
  destruct (run_training_job_launch self request model training_id dir
              child s request_kwargs B) as (f0 & P0 & EL).
  pose proof (run_training_job_wait self request model training_id dir
                child s request_kwargs B) as EW.
  rewrite EL in EW |- *. cbn [fst snd] in EW |- *.
  set (s1 := set_callbacks _ _) in *.
  assert (L : training_map s1 !! training_id = Some (length (futures s)))
    by apply lookup_insert_eq.
  assert (D : training_map
                (fst (run_training_job self request model training_id dir
                        child wait s)) !! training_id
              = Some (length (futures s))).
  { destruct wait; [|now rewrite EL].
    rewrite EW.
    pose proof (result_training_map self (length (futures s)) s1) as T.
    destruct (Pool.result_ self (length (futures s)) s1) as [s2 r].
    cbn [fst] in T |- *. now rewrite T. }
  split; [exact L|]. split; [reflexivity|]. split; [exact D|]. split.
  - intros ->. rewrite EW.
    destruct (result_of_last self s1 (futures s) f0 eq_refl P0)
      as (f' & outcome & LK & ST & OUT).
    destruct (Pool.result_ self (length (futures s)) s1) as [s2 r].
    cbn [fst snd] in *. subst r. split; [reflexivity|].
    exists f', outcome. repeat split; trivial.
    + now intros e ->.
    + now intros v ->.
  - intros s' ST. apply (steps_keep_ids _ _ _ ST). rewrite D. eauto.
Qed.

Lemma registry_keeps_entry_of_failed_training_witness :
  build_caikit_library_request_dict (Sample.servicer false false)
    (Sample.request "x") Sample.BadParam = Return []
  /\ training_map
       (fst (run_training_job (Sample.servicer false false)
               (Sample.request "x") Sample.BadParam "id" None
               Sample.quiet_child true Sample.idle)) !! "id" = Some 0
  /\ snd (run_training_job (Sample.servicer false false)
            (Sample.request "x") Sample.BadParam "id" None
            Sample.quiet_child true Sample.idle)
     = Raise (CaikitRuntimeException StatusCode.INVALID_ARGUMENT
                "Exception raised during training. This may be a problem with your input: bad param"
                (Some (PyError ValueError "bad param"))).
Proof.
  split; [reflexivity|]. split; [|reflexivity].
  pose proof (registry_keeps_entry_of_failed_training
                (Sample.servicer false false) (Sample.request "x")
                Sample.BadParam "id" None Sample.quiet_child true
                Sample.idle [] eq_refl) as P.
  cbv zeta in P. destruct P as (_ & _ & P & _). exact P.
Defined.

End Launch.

(** ** The front door *)

Section FrontDoor.
Lemma Train_raises (self : Servicer) (request : Request) (uuid : string)
    (child : ChildView) (s s' : State) (e : exn) :
  Train_body self request uuid child s = (s', Raise e) ->
  Train self request uuid child s = dispatch Train_clauses e s'.
Proof. intros B. unfold Train, try_except. now rewrite B. Qed.

Lemma Train_returns (self : Servicer) (request : Request) (uuid : string)
    (child : ChildView) (s s' : State) (job : TrainingJob) :
  Train_body self request uuid child s = (s', Return job) ->
  Train self request uuid child s = (s', Return job).
Proof. intros B. unfold Train, try_except. now rewrite B. Qed.

Lemma type_or_value_error_not_cancelled (e : exn) :
  isinstance e [TypeError; ValueError] = true ->
  is_CaikitRuntimeException e = false
  /\ isinstance e [CancelledError] = false.
Proof.
  destruct e as [c m ca|c t]; [discriminate|].
  intros H. split; [reflexivity|]. destruct c; try discriminate; reflexivity.
Qed.

(** C3, as amended: of the failures that leave the body of [Train], a
    [CaikitRuntimeException] leaves [Train] unchanged; a [TypeError] or
    a [ValueError] (or an instance of a subclass) leaves as
    INVALID_ARGUMENT; and any other [Exception] that is no
    [CancelledError] leaves as INTERNAL with the message "Unhandled
    exception during training". *)
Theorem Train_error_policy (self : Servicer) (request : Request)
    (uuid : string) (child : ChildView) (s s' : State) (e : exn) :
  Train_body self request uuid child s = (s', Raise e) ->
  let r := snd (Train self request uuid child s) in
  (is_CaikitRuntimeException e = true -> r = Raise e)
  /\ (isinstance e [TypeError; ValueError] = true ->
      r = Raise (CaikitRuntimeException StatusCode.INVALID_ARGUMENT
                   ("Exception raised during inference. This may be a problem with your input: "
                    ++ str_of e) (Some e)))
  /\ (is_CaikitRuntimeException e = false ->
      isinstance e [CancelledError] = false ->
      isinstance e [TypeError; ValueError] = false ->
      isinstance e [Exception] = true ->
      r = Raise (CaikitRuntimeException StatusCode.INTERNAL
                   "Unhandled exception during training" (Some e))).
Proof.
  intros B r. subst r. rewrite (Train_raises _ _ _ _ _ _ _ B).
  unfold Train_clauses. cbn [dispatch catches handler].
  repeat split.
  - intros ->. reflexivity.
  - intros H. destruct (type_or_value_error_not_cancelled _ H) as [-> ->].
    rewrite H. reflexivity.
  - intros -> -> -> ->. reflexivity.
Qed.

Lemma Train_error_policy_witness :
  Train_body (Sample.mapping_servicer (Raise (PyError ValueError "bad param")))
    (Sample.request "BlocksSampleTaskSampleBlockTrainRequest") "id"
    Sample.quiet_child Sample.idle
  = (Sample.idle, Raise (PyError ValueError "bad param"))
  /\ snd (Train
            (Sample.mapping_servicer (Raise (PyError ValueError "bad param")))
            (Sample.request "BlocksSampleTaskSampleBlockTrainRequest") "id"
            Sample.quiet_child Sample.idle)
     = Raise (CaikitRuntimeException StatusCode.INVALID_ARGUMENT
                "Exception raised during inference. This may be a problem with your input: bad param"
                (Some (PyError ValueError "bad param"))).
Proof.
  assert (B : Train_body
                (Sample.mapping_servicer (Raise (PyError ValueError "bad param")))
                (Sample.request "BlocksSampleTaskSampleBlockTrainRequest")
                "id" Sample.quiet_child Sample.idle
              = (Sample.idle, Raise (PyError ValueError "bad param")))
    by reflexivity.
  split; [exact B|].
  pose proof (Train_error_policy _ _ _ _ _ _ _ B) as P.
  cbv zeta in P. destruct P as (_ & P & _). apply P. reflexivity.
Defined.

(** C3, as stated, fails: a [CancelledError] raised in the body meets
    its own clause, which stops on [err.message]; [Train] is left with
    an [AttributeError], not with INTERNAL. *)
Lemma Train_cancelled_error_not_reclassified :
  snd (Train_body (Sample.mapping_servicer (Raise (PyError CancelledError "")))
         (Sample.request "BlocksSampleTaskSampleBlockTrainRequest") "id"
         Sample.quiet_child Sample.idle)
  = Raise (PyError CancelledError "")
  /\ snd (Train (Sample.mapping_servicer (Raise (PyError CancelledError "")))
            (Sample.request "BlocksSampleTaskSampleBlockTrainRequest") "id"
            Sample.quiet_child Sample.idle)
     = Raise (PyError AttributeError
                "'CancelledError' object has no attribute 'message'")
  /\ snd (Train (Sample.mapping_servicer (Raise (PyError CancelledError "")))
            (Sample.request "BlocksSampleTaskSampleBlockTrainRequest") "id"
            Sample.quiet_child Sample.idle)
     <> Raise (CaikitRuntimeException StatusCode.INTERNAL
                 "Unhandled exception during training"
                 (Some (PyError CancelledError ""))).
Proof. repeat split; try reflexivity. discriminate. Qed.

(** C7, as amended: when the lookup by name raises an [Exception] and
    the scan of the catalog ends without a match, [Train] logs once and
    raises INTERNAL with the message "Global Train not able to parse
    module for this Train Request"; nothing is submitted. *)
Theorem Train_unresolvable (self : Servicer) (request : Request)
    (uuid : string) (child : ChildView) (s : State) (e : exn) :
  resolve_by_name self
    (Str.replace "TrainRequest" "" (DESCRIPTOR_name request)) = Raise e ->
  isinstance e [Exception] = true ->
  scan_registry self (MODULE_REGISTRY self)
    (Str.replace "TrainRequest" "" (DESCRIPTOR_name request)) = Return None ->
  Train self request uuid child s
  = (set_log (log s ++ [Log "<RUN50530380W>"]) s,
     Raise (CaikitRuntimeException StatusCode.INTERNAL
              "Global Train not able to parse module for this Train Request"
              None)).
Proof.
  intros P X F. unfold Train, try_except, Train_body, resolve_model,
    try_except, bind, lift.
  rewrite P. cbn [dispatch catches handler]. rewrite X, F. reflexivity.
Qed.

(** When the scan of the catalog itself stops on a module whose path has
    fewer than three components, the [IndexError] leaves the inner
    handler and [Train] reclassifies it as any other exception. *)
Lemma Train_catalog_scan_raises (self : Servicer) (request : Request)
    (uuid : string) (child : ChildView) (s : State) (e : exn) (t : string) :
  resolve_by_name self
    (Str.replace "TrainRequest" "" (DESCRIPTOR_name request)) = Raise e ->
  isinstance e [Exception] = true ->
  scan_registry self (MODULE_REGISTRY self)
    (Str.replace "TrainRequest" "" (DESCRIPTOR_name request))
  = Raise (PyError IndexError t) ->
  snd (Train self request uuid child s)
  = Raise (CaikitRuntimeException StatusCode.INTERNAL
             "Unhandled exception during training"
             (Some (PyError IndexError t))).
Proof.
  intros P X F. unfold Train, try_except, Train_body, resolve_model,
    try_except, bind, lift.
  rewrite P. cbn [dispatch catches handler]. rewrite X, F. reflexivity.
Qed.

Lemma Train_unresolvable_witness :
  resolve_by_name (Sample.servicer false false)
    (Str.replace "TrainRequest" "" "UnknownThingTrainRequest")
  = Raise (PyError ModuleNotFoundError "sample_lib.unknown.thing")
  /\ scan_registry (Sample.servicer false false)
       (MODULE_REGISTRY (Sample.servicer false false))
       (Str.replace "TrainRequest" "" "UnknownThingTrainRequest")
     = Return None
  /\ snd (Train (Sample.servicer false false)
         (Sample.request "UnknownThingTrainRequest") "id"
         Sample.quiet_child Sample.idle)
  = Raise (CaikitRuntimeException StatusCode.INTERNAL
             "Global Train not able to parse module for this Train Request"
             None).
Proof.
  split; [reflexivity|]. split; [reflexivity|].
  rewrite (Train_unresolvable (Sample.servicer false false)
             (Sample.request "UnknownThingTrainRequest") "id"
             Sample.quiet_child Sample.idle
             (PyError ModuleNotFoundError "sample_lib.unknown.thing"));
    reflexivity.
Defined.

(** C7, as stated, fails: the error of an unresolvable request is
    INTERNAL, but its message is not "module not resolvable". *)
Lemma Train_unresolvable_message :
  snd (Train (Sample.servicer false false)
         (Sample.request "UnknownThingTrainRequest") "id"
         Sample.quiet_child Sample.idle)
  = Raise (CaikitRuntimeException StatusCode.INTERNAL
             "Global Train not able to parse module for this Train Request"
             None)
  /\ ~ (exists cause,
          snd (Train (Sample.servicer false false)
                 (Sample.request "UnknownThingTrainRequest") "id"
                 Sample.quiet_child Sample.idle)
          = Raise (CaikitRuntimeException StatusCode.INTERNAL
                     "module not resolvable" cause)).
Proof. split; [reflexivity|]. intros [cause H]. discriminate H. Qed.
End FrontDoor.

(** ** The shape of the output path *)

Section PathShape.

Lemma occurs_in_app_r (needle hay tail : string) :
  occurs_in needle hay -> occurs_in needle (hay ++ tail)%string.
Proof.
  intros (pre & post & ->). exists pre, (post ++ tail)%string.
  now rewrite !str_app_assoc.
Qed.

Lemma str_app_nil_r (s : string) : (s ++ "")%string = s.
Proof.
  induction s as [|c s IH]; [reflexivity|].
  change (String c (s ++ "")%string = String c s). now f_equal.
Qed.

Lemma occurs_in_suffix (needle pre : string) :
  occurs_in needle (pre ++ needle)%string.
Proof. exists pre, ""%string. now rewrite str_app_nil_r. Qed.

(** A joined path ends with the component joined last. *)
Lemma join_step_ends (path b : string) :
  exists pre : string, posixpath.join_step path b = (pre ++ b)%string.
Proof.
  unfold posixpath.join_step.
  destruct (Str.startswith posixpath.sep b); [now exists ""%string|].
  destruct (String.eqb path "" || Str.endswith posixpath.sep path).
  - now exists path.
  - exists (path ++ posixpath.sep)%string. now rewrite str_app_assoc.
Qed.

(** Joining a relative component keeps what occurred in the path. *)
Lemma join_step_keeps (needle path b : string) :
  Str.startswith "/" b = false -> occurs_in needle path ->
  occurs_in needle (posixpath.join_step path b).
Proof.
  intros R H. unfold posixpath.join_step, posixpath.sep. rewrite R.
  destruct (String.eqb path "" || Str.endswith "/" path);
    now apply occurs_in_app_r.
Qed.

(** X6: whatever the directories and the training id, the output path
    ends with the model name. *)
Theorem model_path_ends_with_model_name (default_output_dir : string)
    (hint : option string) (model_name training_id : string) :
  Str.endswith model_name
    (_get_model_path default_output_dir hint model_name training_id) = true.
Proof.
  assert (E : forall p, Str.endswith model_name
                          (posixpath.join_step p model_name) = true).
  { intros p. destruct (join_step_ends p model_name) as [pre ->].
    apply endswith_app. }
  unfold _get_model_path, posixpath.join.
  destruct hint as [dir|]; [destruct (Str.contains training_id dir)|];
    cbn [fold_left]; apply E.
Qed.

(** X7: a model name that begins with [/] is the output path: the
    join drops the output directory and the training id. *)
Theorem absolute_model_name_is_the_path (default_output_dir : string)
    (hint : option string) (model_name training_id : string) :
  Str.startswith "/" model_name = true ->
  _get_model_path default_output_dir hint model_name training_id
  = model_name.
Proof.
  intros A.
  assert (E : forall p, posixpath.join_step p model_name = model_name).
  { intros p. unfold posixpath.join_step, posixpath.sep. now rewrite A. }
  unfold _get_model_path, posixpath.join.
  destruct hint as [dir|]; [destruct (Str.contains training_id dir)|];
    cbn [fold_left]; apply E.
Qed.

Lemma absolute_model_name_is_the_path_witness :
  _get_model_path "/out" (Some "/data") "/etc/cron.d/job" "1234"
  = "/etc/cron.d/job".
Proof. apply absolute_model_name_is_the_path. reflexivity. Defined.

(** X8: for a model name that does not begin with [/], the training
    id occurs in the output path, in each of the three branches. *)
Theorem model_path_mentions_training_id (default_output_dir : string)
    (hint : option string) (model_name training_id : string) :
  Str.startswith "/" model_name = false ->
  occurs_in training_id
    (_get_model_path default_output_dir hint model_name training_id).
Proof.
  intros R.
  assert (E : forall p, occurs_in training_id
                (posixpath.join_step (posixpath.join_step p training_id)
                   model_name)).
  { intros p. apply join_step_keeps; [exact R|].
    destruct (join_step_ends p training_id) as [pre ->].
    apply occurs_in_suffix. }
  unfold _get_model_path, posixpath.join.
  destruct hint as [dir|]; cbn [fold_left]; [|apply E].
  destruct (Str.contains training_id dir) eqn:C; cbn [fold_left]; [|apply E].
  apply join_step_keeps; [exact R|]. now apply contains_iff.
Qed.

Lemma model_path_mentions_training_id_witness :
  occurs_in "1234" (_get_model_path "/out" (Some "/data/run-1234") "bar" "1234").
Proof. apply model_path_mentions_training_id. reflexivity. Defined.

(** X9: on plain inputs (a directory that is not empty and has no
    trailing [/], an id that is not empty and neither begins nor ends
    with [/], a relative model name) the output path is
    [dir/model_name] when the id occurs in the hint and
    [dir/training_id/model_name] otherwise, [dir] being the hint or,
    without one, the default. *)
Theorem model_path_plain (default_output_dir : string) (hint : option string)
    (model_name training_id : string) :
  let dir := match hint with Some d => d | None => default_output_dir end in
  dir <> "" -> Str.endswith "/" dir = false ->
  training_id <> "" -> Str.startswith "/" training_id = false ->
  Str.endswith "/" training_id = false ->
  Str.startswith "/" model_name = false ->
  _get_model_path default_output_dir hint model_name training_id
  = if match hint with
       | Some d => Str.contains training_id d
       | None => false
       end
    then (dir ++ "/" ++ model_name)%string
    else (dir ++ "/" ++ training_id ++ "/" ++ model_name)%string.
Proof.
  intros dir Hd He Hi Hs Hie Hm.
  destruct (join_plain dir training_id model_name Hd He Hi Hs Hie Hm)
    as [J1 J2].
  unfold _get_model_path. destruct hint as [d|]; subst dir.
  - now destruct (Str.contains training_id d).
  - exact J2.
Qed.

Lemma model_path_plain_witness :
  _get_model_path "/out" None "bar" "1234" = "/out/1234/bar".
Proof.
  apply (model_path_plain "/out" None "bar" "1234");
    (discriminate || reflexivity).
Defined.

End PathShape.

(** ** What the in-process executor does *)

Section LocalEffects.

(** What the [try] body of the in-process executor does, by the answers
    of [train] and [save]. *)
Lemma local_body (module_class : ModuleClass) (model_path : string)
    (kwargs : list (string * string)) (s : ExecState) :
  (model <- LocalTrainSaveExecutor.run_get_or_throw module_class kwargs ;;
   call (ModelSave model_path) (save model model_path)) s
  = match train module_class kwargs with
    | Return model =>
        (emit (ModelSave model_path)
           (emit (ModuleTrain (__name__ module_class)) s),
         save model model_path)
    | Raise e => (emit (ModuleTrain (__name__ module_class)) s, Raise e)
    end.
Proof.
  unfold bind, LocalTrainSaveExecutor.run_get_or_throw, call.
  now destruct (train module_class kwargs).
Qed.

Lemma dispatch_local_trace (e : exn) (s : ExecState) :
  let clauses := 
    [ Except is_CaikitRuntimeException (fun e =>
        tell (Log "<RUN555430380W>") ;;
        @raise ExecState unit e);
      Except (fun e => isinstance e [TypeError; ValueError]) (fun e =>
        tell (Log "<RUN868639039W>") ;;
        raise (CaikitRuntimeException StatusCode.INVALID_ARGUMENT
                 ("Exception raised during training. This may be a problem with your input: "
                  ++ str_of e)
                 (Some e)));
      Except (fun e => isinstance e [Exception]) (fun e =>
        tell (Log "<RUN490967039W>") ;;
        raise (CaikitRuntimeException StatusCode.INTERNAL
                 ("Exception raised during training: " ++ str_of e)
                 (Some e))) ] in
  (exists code e', dispatch clauses e s = (emit (Log code) s, Raise e')
                   /\ is_CaikitRuntimeException e' = true
                   /\ isinstance e [Exception] = true)
  \/ (dispatch clauses e s = (s, Raise e)
      /\ is_CaikitRuntimeException e = false
      /\ isinstance e [Exception] = false).
Proof.
  cbv zeta. cbn [dispatch catches handler].
  destruct (is_CaikitRuntimeException e) eqn:K.
  { left. exists "<RUN555430380W>", e. repeat split; trivial.
    destruct e; [reflexivity | discriminate]. }
  destruct (isinstance e [TypeError; ValueError]) eqn:T.
  { left. eexists _, _. repeat split.
    destruct e as [|c t]; [discriminate|]. destruct c; try discriminate; reflexivity. }
  destruct (isinstance e [Exception]) eqn:X.
  { left. eexists _, _. repeat split. }
  right. repeat split.
Qed.

(** A failure of class [Exception] inside the in-process executor leaves
    it as a [CaikitRuntimeException]. *)
Lemma local_failure_leaves_classified (module_class : ModuleClass)
    (model_path : string) (kwargs : list (string * string))
    (s : ExecState) (e : exn) :
  fails_with module_class model_path kwargs e ->
  isinstance e [Exception] = true ->
  exists s' err,
    LocalTrainSaveExecutor.train_and_save_model module_class model_path
      kwargs s = (s', Raise err)
    /\ is_CaikitRuntimeException err = true.
Proof.
  intros F X.
  unfold LocalTrainSaveExecutor.train_and_save_model, try_except.
  rewrite local_body.
  destruct F as [-> | (model & -> & ->)].
  - destruct (dispatch_local_trace e
                (emit (ModuleTrain (__name__ module_class)) s))
      as [(code & e' & -> & K & _)|(_ & _ & N)]; [eauto | congruence].
  - destruct (dispatch_local_trace e
                (emit (ModelSave model_path)
                   (emit (ModuleTrain (__name__ module_class)) s)))
      as [(code & e' & -> & K & _)|(_ & _ & N)]; [eauto | congruence].
Qed.

(** X10: the in-process executor calls [save] exactly when [train]
    returned: once, on the path it was given.  When [train] raised,
    nothing is saved; a failed [save] is not tried again. *)
Theorem local_saves_exactly_when_trained (module_class : ModuleClass)
    (model_path : string) (kwargs : list (string * string))
    (s : ExecState) :
  filter is_save
    (added s (fst (LocalTrainSaveExecutor.train_and_save_model
                     module_class model_path kwargs s)))
  = match train module_class kwargs with
    | Return _ => [ModelSave model_path]
    | Raise _ => []
    end.
Proof.
  unfold LocalTrainSaveExecutor.train_and_save_model, try_except.
  rewrite local_body.
  destruct (train module_class kwargs) as [model|e0].
  - destruct (save model model_path) as [[]|e1].
    + unfold added, emit; cbn.
      now rewrite <- app_assoc, drop_app_length.
    + destruct (dispatch_local_trace e1
                  (emit (ModelSave model_path)
                     (emit (ModuleTrain (__name__ module_class)) s)))
        as [(code & e' & -> & _)|[-> _]]; unfold added, emit; cbn;
        now rewrite <- !app_assoc, drop_app_length.
  - destruct (dispatch_local_trace e0
                (emit (ModuleTrain (__name__ module_class)) s))
      as [(code & e' & -> & _)|[-> _]]; unfold added, emit; cbn;
      now rewrite <- ?app_assoc, drop_app_length.
Qed.

(** X11: the outcome of the in-process [train_and_save_model] tells the
    truth about the training.  It returns only when [train] returned a
    model and [save] returned; and what it raises, after a failure of
    [train] or of [save], is a [CaikitRuntimeException] or no
    [Exception] at all: no plain [Exception] leaves it. *)
Theorem local_errors_are_classified (module_class : ModuleClass)
    (model_path : string) (kwargs : list (string * string))
    (s : ExecState) :
  match snd (LocalTrainSaveExecutor.train_and_save_model module_class
               model_path kwargs s) with
  | Return _ =>
      exists model, train module_class kwargs = Return model
                    /\ save model model_path = Return tt
  | Raise err =>
      (is_CaikitRuntimeException err = true
       \/ isinstance err [Exception] = false)
      /\ exists e, fails_with module_class model_path kwargs e
  end.
Proof.
  assert (H : forall e s1,
            fails_with module_class model_path kwargs e ->
            match snd (dispatch
                         [ Except is_CaikitRuntimeException (fun e =>
                             tell (Log "<RUN555430380W>") ;;
                             @raise ExecState unit e);
                           Except (fun e => isinstance e [TypeError; ValueError])
                             (fun e =>
                             tell (Log "<RUN868639039W>") ;;
                             raise (CaikitRuntimeException
                                      StatusCode.INVALID_ARGUMENT
                                      ("Exception raised during training. This may be a problem with your input: "
                                       ++ str_of e)
                                      (Some e)));
                           Except (fun e => isinstance e [Exception]) (fun e =>
                             tell (Log "<RUN490967039W>") ;;
                             raise (CaikitRuntimeException StatusCode.INTERNAL
                                      ("Exception raised during training: "
                                       ++ str_of e)
                                      (Some e))) ] e s1) with
            | Return _ => False
            | Raise err =>
                (is_CaikitRuntimeException err = true
                 \/ isinstance err [Exception] = false)
                /\ exists e, fails_with module_class model_path kwargs e
            end).
  { intros e s1 F.
    destruct (dispatch_local_trace e s1)
      as [(code & e' & -> & K & _)|(-> & _ & N)]; cbn [snd]; eauto. }
  unfold LocalTrainSaveExecutor.train_and_save_model, try_except.
  rewrite local_body.
  destruct (train module_class kwargs) as [model|e0] eqn:T.
  - destruct (save model model_path) as [[]|e1] eqn:S; [cbn; eauto|].
    specialize (H e1 (emit (ModelSave model_path)
                        (emit (ModuleTrain (__name__ module_class)) s))).
    match type of H with
    | _ -> match snd ?d with _ => _ end =>
        destruct d as [s2 [[]|err]]; cbn [snd] in H |- *
    end.
    + exfalso. apply H. right. eauto.
    + apply H. right. eauto.
  - specialize (H e0 (emit (ModuleTrain (__name__ module_class)) s)).
    match type of H with
    | _ -> match snd ?d with _ => _ end =>
        destruct d as [s2 [[]|err]]; cbn [snd] in H |- *
    end.
    + exfalso. apply H. now left.
    + apply H. now left.
Qed.

End LocalEffects.

(** ** The life of the process object *)

Section ProcessLife.

Ltac run_subprocess :=
  unfold SubProcessTrainSaveExecutor.train_and_save_model,
    SubProcessTrainSaveExecutor.cancel,
    Process.set_args, Process.start, Process.terminate, Process.close,
    Process.join, Process.exitcode, Process.poll, Process._check_closed,
    tell, bind, ret, raise, get, modify, emit, set_proc;
  cbn.

(** On a process object that was started or closed before, nothing is
    started. *)
Lemma subprocess_not_startable (module_class : ModuleClass)
    (model_path : string) (kwargs : list (string * string))
    (s : ExecState) :
  (_closed (proc s) = true ->
   snd (SubProcessTrainSaveExecutor.train_and_save_model
          module_class model_path kwargs s)
   = Raise (PyError ValueError "process object is closed")
   /\ trace (fst (SubProcessTrainSaveExecutor.train_and_save_model
                    module_class model_path kwargs s)) = trace s)
  /\ (_closed (proc s) = false -> _popen (proc s) <> None ->
      snd (SubProcessTrainSaveExecutor.train_and_save_model
             module_class model_path kwargs s)
      = Raise (PyError AssertionError "cannot start a process twice")
      /\ trace (fst (SubProcessTrainSaveExecutor.train_and_save_model
                       module_class model_path kwargs s)) = trace s).
Proof.
  destruct s as [ev [args popen closed err] ch tr]. cbn. split.
  - intros ->. run_subprocess. now split.
  - intros -> P. destruct popen as [po|]; [|contradiction].
    run_subprocess. now split.
Qed.

(** X12: a child-process executor trains once.  After a first call on
    a fresh process object, however it ended, a second call starts
    nothing and adds no effect: it stops at [start] with the
    [AssertionError] of a process started twice, or with the
    [ValueError] of a closed process object. *)
Theorem subprocess_executor_is_single_use (module_class : ModuleClass)
    (model_path : string) (kwargs : list (string * string))
    (module_class' : ModuleClass) (model_path' : string)
    (kwargs' : list (string * string)) (s0 : ExecState) :
  startable s0 ->
  let s1 := fst (SubProcessTrainSaveExecutor.train_and_save_model
                   module_class model_path kwargs s0) in
  let again := SubProcessTrainSaveExecutor.train_and_save_model
                 module_class' model_path' kwargs' s1 in
  trace (fst again) = trace s1
  /\ (snd again = Raise (PyError AssertionError "cannot start a process twice")
      \/ snd again = Raise (PyError ValueError "process object is closed")).
Proof.
  intros [Hp Hc]. cbv zeta.
  set (s1 := fst (SubProcessTrainSaveExecutor.train_and_save_model
                    module_class model_path kwargs s0)).
  destruct (subprocess_not_startable module_class' model_path' kwargs' s1)
    as [C N].
  assert (S1 : _closed (proc s1) = true
               \/ (_closed (proc s1) = false /\ _popen (proc s1) <> None)).
  { subst s1. destruct s0 as [ev [args popen closed err] [pl code] tr].
    cbn in Hp, Hc; subst popen closed. run_subprocess.
    destruct ev; cbn.
    - destruct pl; cbn; [left; reflexivity | right; split; [reflexivity | discriminate]].
    - right. destruct err as [e|]; cbn.
      + destruct (is_CaikitRuntimeException e); cbn; split; try reflexivity; discriminate.
      + destruct (code =? 0)%Z; cbn; [split; try reflexivity; discriminate|].
        unfold EX_OK. destruct (code =? 0)%Z; cbn;
          [split; try reflexivity; discriminate|].
        destruct (code =? OOM_EXIT_CODE)%Z; cbn; split; try reflexivity; discriminate. }
  destruct S1 as [S1|[S1 S2]].
  - destruct (C S1) as [R T]. split; [exact T | now right].
  - destruct (N S1 S2) as [R T]. split; [exact T | now left].
Qed.

Lemma subprocess_executor_is_single_use_witness :
  startable (SubProcessTrainSaveExecutor.__init__ false Sample.quiet_child)
  /\ snd (SubProcessTrainSaveExecutor.train_and_save_model
            Sample.SampleBlock "/out/id2/bar" []
            (fst (SubProcessTrainSaveExecutor.train_and_save_model
                    Sample.SampleBlock "/out/id/bar" []
                    (SubProcessTrainSaveExecutor.__init__ false
                       Sample.quiet_child))))
     = Raise (PyError AssertionError "cannot start a process twice").
Proof.
  assert (S0 : startable
                 (SubProcessTrainSaveExecutor.__init__ false Sample.quiet_child))
    by (split; reflexivity).
  split; [exact S0|].
  pose proof (subprocess_executor_is_single_use Sample.SampleBlock
                "/out/id/bar" [] Sample.SampleBlock "/out/id2/bar" [] _ S0)
    as P.
  cbv zeta in P. destruct P as [_ [P|P]]; [exact P|]. discriminate P.
Defined.

(** X13: with the event clear, a call on a fresh process object joins
    the child and never closes the process object, whatever the child's
    exit status or error: the object is left open, holding the exit
    status. *)
Theorem subprocess_join_leaves_process_open (module_class : ModuleClass)
    (model_path : string) (kwargs : list (string * string))
    (s0 : ExecState) :
  startable s0 -> event s0 = false ->
  let s := fst (SubProcessTrainSaveExecutor.train_and_save_model
                  module_class model_path kwargs s0) in
  _closed (proc s) = false
  /\ _popen (proc s) = Some {| returncode := Some (joined_exitcode (child s0)) |}
  /\ filter (fun x => bool_decide (x = ProcClose)) (added s0 s) = [].
Proof.
  destruct s0 as [ev [args popen closed err] [pl code] tr].
  intros [Hp Hc] He; cbn in Hp, Hc, He; subst popen closed ev.
  cbv zeta. unfold added. run_subprocess.
  assert (D : drop (length tr) ((tr ++ [ProcStart]) ++ [ProcJoin])
              = [ProcStart; ProcJoin])
    by (rewrite <- app_assoc; apply drop_app_length).
  destruct err as [e|]; cbn.
  - destruct (is_CaikitRuntimeException e); cbn; rewrite D; repeat split.
  - destruct (code =? 0)%Z; cbn; [rewrite D; repeat split|].
    unfold EX_OK. destruct (code =? 0)%Z; cbn; [rewrite D; repeat split|].
    destruct (code =? OOM_EXIT_CODE)%Z; cbn; rewrite D; repeat split.
Qed.

Lemma subprocess_join_leaves_process_open_witness :
  startable (SubProcessTrainSaveExecutor.__init__ false Sample.oom_killed)
  /\ _closed (proc (fst (SubProcessTrainSaveExecutor.train_and_save_model
                          Sample.SampleBlock "/out/id/bar" []
                          (SubProcessTrainSaveExecutor.__init__ false
                             Sample.oom_killed)))) = false.
Proof.
  assert (S : startable
                (SubProcessTrainSaveExecutor.__init__ false Sample.oom_killed))
    by (split; reflexivity).
  split; [exact S|].
  destruct (subprocess_join_leaves_process_open Sample.SampleBlock
              "/out/id/bar" [] _ S eq_refl) as [C _].
  exact C.
Defined.

Lemma caikit_is_exception (e : exn) :
  is_CaikitRuntimeException e = true -> isinstance e [Exception] = true.
Proof. destruct e; [reflexivity | discriminate]. Qed.

(** C2: the error a failed training raises in the child never reaches
    the parent.  When [train] or [save] fails in the child with an
    [Exception], the in-process executor the child runs raises a
    [CaikitRuntimeException]; [run] stores it on the child's copy of the
    process object and returns, so the child exits with status 0.  The
    parent's process object still has no error after the join, and the
    call returns as for a training that succeeded, where the
    classification claimed for a captured domain error raises it
    again. *)
Theorem subprocess_child_error_is_lost (module_class : ModuleClass)
    (model_path : string) (kwargs : list (string * string))
    (exit_status : Z) (s0 : ExecState) (e : exn) :
  startable s0 -> event s0 = false -> error (proc s0) = None ->
  fails_with module_class model_path kwargs e ->
  isinstance e [Exception] = true ->
  joined_exitcode (child s0)
  = SubProcessTrainSaveExecutor.child_exit module_class model_path kwargs
      exit_status s0 ->
  let copy := fst (Process.set_args module_class model_path kwargs s0) in
  let in_child :=
    SubProcessTrainSaveExecutor.child_main module_class model_path kwargs
      copy in
  let in_parent :=
    SubProcessTrainSaveExecutor.train_and_save_model module_class
      model_path kwargs s0 in
  (exists err,
     snd (LocalTrainSaveExecutor.train_and_save_model module_class
            model_path kwargs copy) = Raise err
     /\ is_CaikitRuntimeException err = true
     /\ error (proc (fst in_child)) = Some err
     /\ spec_after_join (Some err) (joined_exitcode (child s0)) = Raise err)
  /\ snd in_child = Return tt
  /\ joined_exitcode (child s0) = 0%Z
  /\ error (proc (fst in_parent)) = None
  /\ snd in_parent = Return tt.
Proof.
  intros [Hp Hc] He Herr F X J. cbv zeta.
  set (copy := fst (Process.set_args module_class model_path kwargs s0)).
  destruct (local_failure_leaves_classified module_class model_path kwargs
              copy e F X) as (s' & err & L & K).
  assert (C : SubProcessTrainSaveExecutor.child_main module_class model_path
                kwargs copy
              = (set_proc {| _args := _args (proc s');
                             _popen := _popen (proc s');
                             _closed := _closed (proc s');
                             error := Some err |} s', Return tt)).
  { unfold SubProcessTrainSaveExecutor.child_main,
      SubProcessTrainSaveExecutor.run, try_except.
    rewrite L. cbn [dispatch catches handler].
    now rewrite (caikit_is_exception err K). }
  assert (Z0 : joined_exitcode (child s0) = 0%Z).
  { rewrite J. unfold SubProcessTrainSaveExecutor.child_exit.
    fold copy. now rewrite C. }
  split.
  - exists err. rewrite L, C. repeat split; trivial.
    unfold spec_after_join. now rewrite K.
  - rewrite C. split; [reflexivity|]. split; [exact Z0|].
    clear - Hp Hc He Herr Z0.
    destruct s0 as [ev [args popen closed err0] [pl code] tr].
    cbn in Hp, Hc, He, Herr, Z0. subst popen closed ev err0 code.
    run_subprocess. now split.
Qed.

Lemma subprocess_child_error_is_lost_witness :
  fails_with Sample.BadParam "/out/id/bar" []
    (PyError ValueError "bad param")
  /\ error (proc (fst (SubProcessTrainSaveExecutor.child_main
                         Sample.BadParam "/out/id/bar" []
                         (fst (Process.set_args Sample.BadParam
                                 "/out/id/bar" []
                                 (SubProcessTrainSaveExecutor.__init__ false
                                    Sample.busy_child))))))
     = Some (CaikitRuntimeException StatusCode.INVALID_ARGUMENT
               "Exception raised during training. This may be a problem with your input: bad param"
               (Some (PyError ValueError "bad param")))
  /\ snd (SubProcessTrainSaveExecutor.train_and_save_model Sample.BadParam
            "/out/id/bar" []
            (SubProcessTrainSaveExecutor.__init__ false Sample.busy_child))
     = Return tt.
Proof.
  assert (F : fails_with Sample.BadParam "/out/id/bar" []
                (PyError ValueError "bad param")) by (left; reflexivity).
  split; [exact F|]. split; [reflexivity|].
  pose proof (subprocess_child_error_is_lost Sample.BadParam "/out/id/bar"
                [] 0%Z
                (SubProcessTrainSaveExecutor.__init__ false Sample.busy_child)
                (PyError ValueError "bad param")
                (conj eq_refl eq_refl) eq_refl eq_refl F eq_refl eq_refl)
    as P.
  cbv zeta in P. destruct P as (_ & _ & _ & _ & P). exact P.
Defined.

End ProcessLife.

(** ** Resolving the module *)

Section Resolution.

(** Joining the pieces of a split gives the string back. *)
Lemma pieces_after_concat (prev : ascii) (s : string) :
  Str.concat (pieces_after prev s) = s.
Proof.
  revert prev. induction s as [|c rest IH]; intros prev; [reflexivity|].
  cbn [pieces_after]. specialize (IH c).
  assert (E : Str.concat match pieces_after c rest with
                         | [] => [String c EmptyString]
                         | p :: ps => String c p :: ps
                         end = String c rest).
  { destruct (pieces_after c rest) as [|p ps]; cbn in IH |- *; now subst. }
  now destruct (Str.is_upper c && negb (Ascii.eqb prev "010"%char)).
Qed.

(** Every piece after the first begins with an upper-case letter. *)
Lemma pieces_after_tail (prev : ascii) (s : string) :
  Forall (fun p => starts_upper p = true) (tail (pieces_after prev s)).
Proof.
  revert prev. induction s as [|c rest IH]; intros prev; [constructor|].
  cbn [pieces_after]. specialize (IH c).
  destruct (Str.is_upper c && negb (Ascii.eqb prev "010"%char)) eqn:U.
  - apply andb_true_iff in U as [U _]. cbn [tail].
    destruct (pieces_after c rest) as [|p ps]; constructor; trivial.
  - destruct (pieces_after c rest) as [|p ps]; [constructor|exact IH].
Qed.

(** A string without upper-case letters is one piece. *)
Lemma pieces_after_no_upper (prev : ascii) (s : string) :
  no_upper s = true -> pieces_after prev s = [s].
Proof.
  revert prev. induction s as [|c rest IH]; intros prev N; [reflexivity|].
  unfold no_upper in N. cbn in N. apply andb_true_iff in N as [U N].
  cbn [pieces_after]. rewrite (IH c N).
  apply negb_true_iff in U. now rewrite U.
Qed.

(** X16: the lookup by name reads the descriptor name as two path words
    followed by the class name.  Unless it stops with the [IndexError]
    of a name that has fewer than two pieces, it asks the import for
    the attribute [cls] of [library.lower(s0).lower(s1)], where the
    descriptor name is [s0 ++ s1 ++ cls], [s0] is not empty and [s1]
    begins with an upper-case letter. *)
Theorem resolve_by_name_reads_the_name (self : Servicer) (desc_name : string) :
  resolve_by_name self desc_name
  = Raise (PyError IndexError "list index out of range")
  \/ exists s0 s1 cls : string,
       desc_name = (s0 ++ s1 ++ cls)%string
       /\ s0 <> EmptyString
       /\ starts_upper s1 = true
       /\ resolve_by_name self desc_name
          = import_getattr self
              (library self ++ "." ++ Str.lower s0 ++ "." ++ Str.lower s1)
              cls.
Proof.
  unfold resolve_by_name.
  destruct desc_name as [|c rest]; [now left|].
  pose proof (pieces_after_concat c rest) as C.
  pose proof (pieces_after_tail c rest) as T.
  cbn [re_split_upper].
  destruct (pieces_after c rest) as [|p [|s1 ps]]; [now left|now left|].
  right. exists (String c p), s1, (Str.concat ps).
  cbn in C, T. apply Forall_cons in T as [U _].
  split; [now rewrite <- C|]. split; [discriminate|]. now split.
Qed.

(** X17: a descriptor name with no upper-case letter after its first
    character is never looked up by name: whatever the import would
    answer, the module is the one the catalog scan gives. *)
Theorem one_word_name_goes_to_the_catalog (self : Servicer)
    (desc_name : string) (s : State) :
  one_word desc_name = true ->
  resolve_by_name self desc_name
  = Raise (PyError IndexError "list index out of range")
  /\ resolve_model self desc_name s
     = (s, scan_registry self (MODULE_REGISTRY self) desc_name).
Proof.
  intros W.
  assert (R : resolve_by_name self desc_name
              = Raise (PyError IndexError "list index out of range")).
  { unfold resolve_by_name. destruct desc_name as [|c rest]; [reflexivity|].
    cbn [re_split_upper]. cbn in W.
    now rewrite (pieces_after_no_upper c rest W). }
  split; [exact R|].
  unfold resolve_model, try_except, bind, lift. now rewrite R.
Qed.

Lemma one_word_name_goes_to_the_catalog_witness :
  one_word "Sample" = true
  /\ resolve_model (Sample.servicer false false) "Sample" Sample.idle
     = (Sample.idle, Return None).
Proof.
  split; [reflexivity|].
  destruct (one_word_name_goes_to_the_catalog (Sample.servicer false false)
              "Sample" Sample.idle eq_refl) as [_ R].
  exact R.
Defined.

(** X18: the catalog scan answers with the first module whose request
    name is the one looked for; it answers [None] when it went past
    every module; and it stops with an [IndexError] at a module whose
    path has fewer than three components, when no module before it
    matched. *)
Theorem scan_registry_first_match (self : Servicer)
    (mods : list ModuleClass) (desc_name : string) :
  match scan_registry self mods desc_name with
  | Return (Some m) =>
      exists before after,
        mods = before ++ m :: after
        /\ Forall (passed_over self desc_name) before
        /\ train_request_name self m = Some desc_name
  | Return None => Forall (passed_over self desc_name) mods
  | Raise e =>
      e = PyError IndexError "list index out of range"
      /\ exists before m after,
           mods = before ++ m :: after
           /\ Forall (passed_over self desc_name) before
           /\ train_request_name self m = None
  end.
Proof.
  induction mods as [|m rest IH]; [constructor|].
  cbn [scan_registry].
  pose proof (eq_refl (train_request_name self m)) as TR.
  unfold train_request_name at 2 in TR.
  destruct (Str.split "." (__module__ m)) as [|p0 [|m1 [|m2 tl]]].
  1-3: split; [reflexivity|]; exists [], m, rest;
       split; [reflexivity|]; split; [constructor|exact TR].
  destruct (String.eqb (snake_to_upper_camel self
                          (m1 ++ "_" ++ m2 ++ "_" ++ __name__ m))
                       desc_name) eqn:E.
  - apply String.eqb_eq in E. rewrite E in TR.
    exists [], rest. split; [reflexivity|]. split; [constructor|exact TR].
  - apply String.eqb_neq in E.
    assert (P : passed_over self desc_name m) by (eexists; eauto).
    destruct (scan_registry self rest desc_name) as [[m'|]|e].
    + destruct IH as (before & after & -> & F & T).
      exists (m :: before), after. split; [reflexivity|].
      split; [now constructor|exact T].
    + now constructor.
    + destruct IH as (-> & before & x & after & -> & F & T).
      split; [reflexivity|].
      exists (m :: before), x, after. split; [reflexivity|].
      split; [now constructor|exact T].
Qed.

End Resolution.

(** ** The cancellation callback *)

Section Cancellation.

(** X19: the cancellation callback signals and nothing more.  It leaves
    the registry, the callbacks and the log alone and changes the state
    of no future: a training still in the queue stays in the queue.
    The one thing it does is to set the event of its own future's
    executor, and only when that future is running and the event is
    clear. *)
Theorem cancel_future_only_signals (fut : nat) (s : State) :
  let s' := fst (cancel_future fut s) in
  snd (cancel_future fut s) = Return tt
  /\ training_map s' = training_map s
  /\ callbacks s' = callbacks s
  /\ log s' = log s
  /\ length (futures s') = length (futures s)
  /\ forall i f,
       futures s !! i = Some f ->
       exists f',
         futures s' !! i = Some f'
         /\ Future._state f' = Future._state f
         /\ (f' = f
             \/ i = fut /\ Pool.running f = true
                /\ event (Future.executor f) = false
                /\ Future.executor f' = set_event true (Future.executor f)).
Proof.
  cbv zeta. unfold cancel_future, bind, get, ret, modify.
  destruct (futures s !! fut) as [f0|] eqn:L; cbn [fst snd].
  2: { repeat split. intros i f ->. eauto. }
  destruct (Pool.running f0 && negb (event (Future.executor f0))) eqn:G;
    cbn [fst snd].
  2: { repeat split. intros i f ->. eauto. }
  apply andb_true_iff in G as [R E]. apply negb_true_iff in E.
  cbn [set_futures training_map callbacks log futures].
  repeat split; [now rewrite length_insert|].
  intros i f Li.
  assert (ST : Future._state f0 = Future.RUNNING).
  { unfold Pool.running in R. now destruct (Future._state f0). }
  unfold Pool.cancel.
  cbn [Future._state Future.target Future.kwargs Future.subprocess
       Future.executor].
  rewrite ST. cbn [fst].
  destruct (decide (i = fut)) as [->|NE].
  - rewrite L in Li. injection Li as <-.
    rewrite list_lookup_insert_eq by (now apply lookup_lt_Some in L).
    eexists. split; [reflexivity|]. split; [now rewrite ST|].
    right. now repeat split.
  - rewrite list_lookup_insert_ne by congruence. eauto.
Qed.

End Cancellation.

(** ** What a call of [Train] leaves behind *)

Section TrainFrame.

(** Resolution reads the collaborators and leaves the state alone. *)
Lemma resolve_model_pure (self : Servicer) (desc_name : string) (s : State) :
  fst (resolve_model self desc_name s) = s.
Proof.
  unfold resolve_model, try_except, bind, lift, ret.
  destruct (resolve_by_name self desc_name) as [m|e]; [reflexivity|].
  cbn [dispatch catches handler].
  now destruct (isinstance e [Exception]).
Qed.

(** A module is resolved by name, or by the catalog after the lookup
    by name failed with an [Exception]. *)
Lemma resolve_model_some (self : Servicer) (desc_name : string) (s : State)
    (m : ModuleClass) :
  snd (resolve_model self desc_name s) = Return (Some m) ->
  resolve_by_name self desc_name = Return m
  \/ ((exists e, resolve_by_name self desc_name = Raise e
                 /\ isinstance e [Exception] = true)
      /\ scan_registry self (MODULE_REGISTRY self) desc_name
         = Return (Some m)).
Proof.
  unfold resolve_model, try_except, bind, lift, ret.
  destruct (resolve_by_name self desc_name) as [m0|e].
  - intros [= ->]. now left.
  - cbn [dispatch catches handler].
    destruct (isinstance e [Exception]) eqn:X; [|discriminate].
    cbn. intros ->. right. eauto.
Qed.

(** The body of [Train] either raises in the state it started from or
    returns the job after one launch without wait. *)
Lemma Train_body_cases (self : Servicer) (request : Request) (uuid : string)
    (child : ChildView) (s : State) :
  (exists e, Train_body self request uuid child s = (s, Raise e))
  \/ (exists model kw,
        snd (resolve_model self
               (Str.replace "TrainRequest" "" (DESCRIPTOR_name request)) s)
        = Return (Some model)
        /\ build_caikit_library_request_dict self request model = Return kw
        /\ Train_body self request uuid child s
           = run_training_job self request model uuid
               (Some (training_output_dir self)) child false s).
Proof.
  unfold Train_body, bind.
  pose proof (resolve_model_pure self
                (Str.replace "TrainRequest" "" (DESCRIPTOR_name request)) s)
    as P.
  destruct (resolve_model self
              (Str.replace "TrainRequest" "" (DESCRIPTOR_name request)) s)
    as [s1 [[model|]|e]]; cbn in P; subst s1.
  - destruct (build_caikit_library_request_dict self request model)
      as [kw|e] eqn:B.
    + right. exists model, kw. now repeat split.
    + left. exists e. unfold run_training_job, bind, lift. now rewrite B.
  - left. eexists. reflexivity.
  - left. now exists e.
Qed.

(** Every handler of [Train] ends by raising. *)
Lemma Train_clauses_raise (e : exn) (s : State) :
  exists e', snd (dispatch Train_clauses e s) = Raise e'.
Proof.
  unfold Train_clauses. cbn [dispatch catches handler].
  destruct (is_CaikitRuntimeException e); [now eexists|].
  destruct (isinstance e [CancelledError]); [now eexists|].
  destruct (isinstance e [TypeError; ValueError]); [now eexists|].
  destruct (isinstance e [Exception]); now eexists.
Qed.

(** X14: a call of [Train] that raises has submitted nothing: the
    registry, the pool and the callbacks are what they were.  It
    added one coded log record when the error that leaves is a
    [CaikitRuntimeException], and none otherwise. *)
Theorem Train_failure_only_logs (self : Servicer) (request : Request)
    (uuid : string) (child : ChildView) (s s' : State) (e : exn) :
  Train self request uuid child s = (s', Raise e) ->
  training_map s' = training_map s /\ futures s' = futures s
  /\ callbacks s' = callbacks s
  /\ exists l, log s' = log s ++ l
       /\ if is_CaikitRuntimeException e
          then exists code, l = [Log code]
          else l = [].
Proof.
  intros T. unfold Train, try_except in T.
  destruct (Train_body_cases self request uuid child s)
    as [[e0 B]|(model & kw & _ & M & B)]; rewrite B in T.
  - cbv beta iota in T. unfold Train_clauses in T.
    cbn [dispatch catches handler] in T.
    destruct (is_CaikitRuntimeException e0) eqn:C.
    { injection T as <- <-. rewrite C. cbn. repeat split; eauto. }
    destruct (isinstance e0 [CancelledError]).
    { injection T as <- <-. cbn. repeat split.
      exists []. now rewrite app_nil_r. }
    destruct (isinstance e0 [TypeError; ValueError]).
    { injection T as <- <-. cbn. repeat split; eauto. }
    destruct (isinstance e0 [Exception]).
    { injection T as <- <-. cbn. repeat split; eauto. }
    injection T as <- <-. rewrite C. repeat split.
    exists []. now rewrite app_nil_r.
  - destruct (run_training_job_launch self request model uuid
                (Some (training_output_dir self)) child s kw M)
      as (f & _ & L).
    rewrite L in T. discriminate T.
Qed.

Lemma Train_failure_only_logs_witness :
  Train (Sample.servicer false false)
    (Sample.request "UnknownThingTrainRequest") "id" Sample.quiet_child
    Sample.idle
  = (set_log [Log "<RUN50530380W>"] Sample.idle,
     Raise (CaikitRuntimeException StatusCode.INTERNAL
              "Global Train not able to parse module for this Train Request"
              None))
  /\ futures (set_log [Log "<RUN50530380W>"] Sample.idle) = [].
Proof.
  assert (T : Train (Sample.servicer false false)
                (Sample.request "UnknownThingTrainRequest") "id"
                Sample.quiet_child Sample.idle
              = (set_log [Log "<RUN50530380W>"] Sample.idle,
                 Raise (CaikitRuntimeException StatusCode.INTERNAL
                          "Global Train not able to parse module for this Train Request"
                          None))) by reflexivity.
  split; [exact T|].
  destruct (Train_failure_only_logs _ _ _ _ _ _ _ T) as (_ & F & _).
  exact F.
Defined.

(** X15: a call of [Train] returns only after it has resolved a module
    (by name, or in the catalog once the lookup by name raised an
    [Exception]) and mapped the request to keyword arguments for it.
    It has then submitted exactly one work item to the pool, registered
    that item's future under the fresh id and added one cancellation
    callback for it; the job it returns carries the model name of the
    request and the id. *)
Theorem Train_return_registers_one_job (self : Servicer) (request : Request)
    (uuid : string) (child : ChildView) (s s' : State) (job : TrainingJob) :
  Train self request uuid child s = (s', Return job) ->
  let desc_name := Str.replace "TrainRequest" "" (DESCRIPTOR_name request) in
  job = {| job_model_name := model_name request; training_id := uuid |}
  /\ training_map s' = <[uuid := length (futures s)]> (training_map s)
  /\ callbacks s' = callbacks s ++ [length (futures s)]
  /\ length (futures s') = S (length (futures s))
  /\ exists m kw,
       build_caikit_library_request_dict self request m = Return kw
       /\ (resolve_by_name self desc_name = Return m
           \/ ((exists e, resolve_by_name self desc_name = Raise e
                          /\ isinstance e [Exception] = true)
               /\ scan_registry self (MODULE_REGISTRY self) desc_name
                  = Return (Some m))).
Proof.
  intros T. cbv zeta. unfold Train, try_except in T.
  destruct (Train_body_cases self request uuid child s)
    as [[e0 B]|(model & kw & RM & M & B)]; rewrite B in T.
  - cbv beta iota in T.
    destruct (Train_clauses_raise e0 s) as [e' R].
    rewrite T in R. discriminate R.
  - destruct (run_training_job_launch self request model uuid
                (Some (training_output_dir self)) child s kw M)
      as (f & _ & L).
    rewrite L in T. injection T as <- <-.
    cbn [training_map callbacks futures set_callbacks set_training_map
         set_futures].
    split; [reflexivity|]. split; [reflexivity|]. split; [reflexivity|].
    split; [rewrite length_app; cbn; lia|].
    exists model, kw. split; [exact M|].
    exact (resolve_model_some _ _ _ _ RM).
Qed.

Lemma Train_return_registers_one_job_witness :
  Train (Sample.servicer true false)
    (Sample.request "BlocksSampleBadParamTrainRequest") "id"
    Sample.quiet_child Sample.idle
  = (fst (Train (Sample.servicer true false)
            (Sample.request "BlocksSampleBadParamTrainRequest") "id"
            Sample.quiet_child Sample.idle),
     Return {| job_model_name := "bar"; training_id := "id" |})
  /\ training_map
       (fst (Train (Sample.servicer true false)
               (Sample.request "BlocksSampleBadParamTrainRequest") "id"
               Sample.quiet_child Sample.idle)) !! "id" = Some 0.
Proof.
  assert (T : Train (Sample.servicer true false)
                (Sample.request "BlocksSampleBadParamTrainRequest") "id"
                Sample.quiet_child Sample.idle
              = (fst (Train (Sample.servicer true false)
                        (Sample.request "BlocksSampleBadParamTrainRequest")
                        "id" Sample.quiet_child Sample.idle),
                 Return {| job_model_name := "bar"; training_id := "id" |}))
    by reflexivity.
  split; [exact T|].
  destruct (Train_return_registers_one_job _ _ _ _ _ _ _ T)
    as (_ & M & _).
  rewrite M. apply lookup_insert_eq.
Defined.

End TrainFrame.
